(** * Vault Master interactive file manager: model and verified properties

    A shallow embedding of [interactive_file_manager.py]: the SQLite-backed
    metadata store ([VaultDatabase]), the content analyzer and the
    process-new-file workflow of [InteractiveFileManager].

    Conventions.
    - A Python [str] is a Rocq [string], one [ascii] per character.  Literals
      that contain characters outside ASCII (the emoji of the tag labels) are
      written as their UTF-8 bytes; they are only compared and concatenated,
      never sliced.
    - [str.lower()] is modelled on the first 256 code points: the letters
      A-Z and the capitals from 192 to 222 (the multiplication sign 215
      excepted) move up by 32, every other character stays.  The tests the
      program itself makes on lowered text are comparisons with ASCII words
      that contain neither [i] nor [k], the two ASCII letters that a
      character beyond these can lower to, so those tests agree for every
      text.
    - The storage engine (SQLite) and the optional document libraries are
      not part of the program; the parts of their behaviour the program
      relies on are modelled below and marked as such. *)

From Stdlib Require Import String Ascii ZArith NArith List Bool Lia.
From Stdlib Require Import DecimalString.
Import ListNotations.

Local Open Scope string_scope.
Local Open Scope Z_scope.

(** ** Python string operations *)

Module PyStr.

(** Characters for which [str.isspace] holds, among the first 256 code
    points: tab to carriage return, the four separators 28..31, space,
    next-line (133) and no-break space (160). *)
Definition isspace (c : ascii) : bool :=
  let n := nat_of_ascii c in
  ((9 <=? n) && (n <=? 13))%nat || ((28 <=? n) && (n <=? 32))%nat
  || (n =? 133)%nat || (n =? 160)%nat.

Definition lower_char (c : ascii) : ascii :=
  let n := nat_of_ascii c in
  if (((65 <=? n) && (n <=? 90)) || ((192 <=? n) && (n <=? 222) && negb (n =? 215)))%nat
  then ascii_of_nat (n + 32) else c.

Fixpoint lower (s : string) : string :=
  match s with
  | EmptyString => EmptyString
  | String c r => String (lower_char c) (lower r)
  end.

Fixpoint lstrip (s : string) : string :=
  match s with
  | EmptyString => EmptyString
  | String c r => if isspace c then lstrip r else s
  end.

(** [rstrip] keeps a character when it is not a space or when something
    is left after it. *)
Fixpoint rstrip (s : string) : string :=
  match s with
  | EmptyString => EmptyString
  | String c r =>
      match rstrip r with
      | EmptyString => if isspace c then EmptyString else String c EmptyString
      | r' => String c r'
      end
  end.

Definition strip (s : string) : string := rstrip (lstrip s).

(** [s.startswith(p)] *)
Definition startswith (p s : string) : bool := String.prefix p s.

(** [w in s] *)
Fixpoint contains (w s : string) : bool :=
  String.prefix w s ||
  match s with
  | EmptyString => false
  | String _ r => contains w r
  end.

(** [s.replace(c, '')] for a one-character [c] *)
Fixpoint remove_char (c : ascii) (s : string) : string :=
  match s with
  | EmptyString => EmptyString
  | String d r => if Ascii.eqb c d then remove_char c r else String d (remove_char c r)
  end.

(** [s[:n]] *)
Fixpoint take (n : nat) (s : string) : string :=
  match n, s with
  | S m, String c r => String c (take m r)
  | _, _ => EmptyString
  end.

(** [s.split(c)]: never empty, one more piece than occurrences of [c]. *)
Fixpoint split (c : ascii) (s : string) : list string :=
  match s with
  | EmptyString => [EmptyString]
  | String d r =>
      if Ascii.eqb c d then EmptyString :: split c r
      else match split c r with
           | [] => [String d EmptyString]
           | p :: ps => String d p :: ps
           end
  end.

(** [sep.join(l)] *)
Fixpoint join (sep : string) (l : list string) : string :=
  match l with
  | [] => EmptyString
  | [x] => x
  | x :: r => x ++ sep ++ join sep r
  end.

(** Truthiness of a string: non-empty. *)
Definition truthy (s : string) : bool :=
  match s with EmptyString => false | _ => true end.

(** [a or b] on strings *)
Definition or_else (a b : string) : string := if truthy a then a else b.

(** [any(w in s for w in ws)] *)
Definition any_in (ws : list string) (s : string) : bool :=
  existsb (fun w => contains w s) ws.

(** Decimal numeral of a natural number, as [str(n)] prints it. *)
Definition of_N (n : N) : string := NilZero.string_of_uint (N.to_uint n).

Definition newline : ascii := ascii_of_nat 10.

End PyStr.

(** ** Python numbers in [human_readable_size]

    [size_bytes] starts as an [int] and becomes a [float] at the first
    division by [1024.0].  A float is kept as the exact dyadic rational
    [m / 2^k] it denotes. *)

Inductive pynum : Type :=
| PyInt (n : Z)
| PyFloat (m : Z) (k : N).

(** Nearest integer to [a / b] for [b > 0], ties to the even neighbour. *)
Definition round_half_even (a b : Z) : Z :=
  let q := a / b in
  let r := a mod b in
  if 2 * r <? b then q
  else if b <? 2 * r then q + 1
  else if Z.even q then q else q + 1.

(** [float(n)]: the nearest double, that is [n] rounded to 53 significant
    bits, ties to even.  The exponent range of a double is not represented:
    a file size is below [2^63], far from overflow. *)
Definition float_of_int (n : Z) : Z :=
  let a := Z.abs n in
  let bits := Z.log2 a + 1 in
  if bits <=? 53 then n
  else let s := bits - 53 in
       Z.sgn n * (round_half_even a (2 ^ s) * 2 ^ s).

(** The text of [m / 2^k] with one digit after the point, correctly
    rounded (ties to even), as the format [.1f] prints it. *)
Definition one_decimal (m : Z) (d : Z) : string :=
  let t := round_half_even (10 * Z.abs m) d in
  (if m <? 0 then "-" else "")
  ++ PyStr.of_N (Z.to_N (t / 10)) ++ "." ++ PyStr.of_N (Z.to_N (t mod 10)).

(** [f"{v:.1f}"]; an [int] is converted with [float] first. *)
Definition format_1f (v : pynum) : string :=
  match v with
  | PyInt n => one_decimal (float_of_int n) 1
  | PyFloat m k => one_decimal m (2 ^ Z.of_N k)
  end.

(** [v < 1024.0]; comparing an [int] with a float is exact in Python. *)
Definition lt_1024 (v : pynum) : bool :=
  match v with
  | PyInt n => n <? 1024
  | PyFloat m k => m <? 1024 * 2 ^ Z.of_N k
  end.

(** [v / 1024.0]: a division by a power of two is exact on doubles (the
    loop only divides values that are at least 1024, so nothing
    underflows). *)
Definition div_1024 (v : pynum) : pynum :=
  match v with
  | PyInt n => PyFloat (float_of_int n) 10
  | PyFloat m k => PyFloat m (k + 10)
  end.

Definition size_units : list string := ["B"; "KB"; "MB"; "GB"; "TB"].

(** The [for unit in ...] loop of [human_readable_size] with its early
    return, and the final [return] after the loop. *)
Fixpoint size_loop (units : list string) (v : pynum) : string :=
  match units with
  | [] => format_1f v ++ " PB"
  | unit :: rest =>
      if lt_1024 v then format_1f v ++ " " ++ unit
      else size_loop rest (div_1024 v)
  end.

Definition human_readable_size (size_bytes : Z) : string :=
  size_loop size_units (PyInt size_bytes).

(** ** The metadata store *)

(** One row of the table [files], columns in the order of [CREATE TABLE],
    which is the order of the tuples that [SELECT *] returns.  All columns
    but [id] are declared [TEXT]; their values are modelled as strings. *)
Record FileRecord : Type := mkFileRecord {
  id : Z;
  description : string;
  tags : string;
  status : string;
  content_type : string;
  sensitivity : string;
  custom_fields : string;
  date_created : string;
  filename : string;
  path : string
}.

(** The 9-tuple [file_data] handed to [add_file_metadata], in the order of
    the column list of its [INSERT]. *)
Record FileData : Type := mkFileData {
  fd_description : string;
  fd_tags : string;
  fd_status : string;
  fd_content_type : string;
  fd_sensitivity : string;
  fd_custom_fields : string;
  fd_date_created : string;
  fd_filename : string;
  fd_path : string
}.

(** The database file: the rows of [files] in storage order and the
    counter that [AUTOINCREMENT] keeps in [sqlite_sequence]. *)
Record VaultDatabase : Type := mkVaultDatabase {
  files : list FileRecord;
  sqlite_sequence : Z
}.

Definition empty_database : VaultDatabase := mkVaultDatabase [] 0.

Inductive sqlval : Type :=
| SqlText (s : string)
| SqlInt (z : Z).

Inductive sql_error : Type :=
| IntegrityError (msg : string)
| OperationalError (msg : string).

(** What the program writes to the terminal.  Messages that report an
    outcome are kept apart; banners, panels and prompt texts are one
    constructor each. *)
Inductive message : Type :=
| MsgDuplicatePath          (* "Warning: A record for this file path already exists" *)
| MsgAddError (e : sql_error)
| MsgRetrieveError (e : sql_error)
| MsgUpdateError (e : sql_error)
| MsgFileNotFound (p : string)
| MsgProcessing (name : string)
| MsgPanel (lines : list string)
| MsgSaved                  (* "File metadata saved successfully!" *)
| MsgSaveFailed             (* "Failed to save metadata." *)
| MsgCancelled.             (* "Operation cancelled." *)

(** Observable actions: a line printed, or a statement handed to
    [cursor.execute] with its parameters. *)
Inductive event : Type :=
| Printed (m : message)
| Executed (sql : string) (params : list sqlval).

(** Result of a store method: the returned value, the database afterwards
    and what the call did on the way. *)
Record outcome (A : Type) : Type := mkOutcome {
  value : A;
  db_after : VaultDatabase;
  log : list event
}.
Arguments mkOutcome {A} _ _ _.
Arguments value {A} _.
Arguments db_after {A} _.
Arguments log {A} _.

Module Sqlite.

(** Modelled behaviour of the storage engine on the statements the
    program issues.  Failures of the medium (unreachable file, full disk,
    locks) are outside the model. *)

Definition insert_statement : string :=
  "INSERT INTO files (description, tags, status, content_type, sensitivity, custom_fields, date_created, filename, path) VALUES (?, ?, ?, ?, ?, ?, ?, ?, ?)".
Definition select_by_path : string := "SELECT * FROM files WHERE path=?".
Definition select_by_filename : string := "SELECT * FROM files WHERE filename=?".
Definition select_all : string := "SELECT * FROM files".

(** The statement text that [update_file_metadata] builds with its
    f-string. *)
Definition update_statement (field : string) : string :=
  "UPDATE files SET " ++ field ++ "=? WHERE id=?".

Definition insert_params (d : FileData) : list sqlval :=
  map SqlText [fd_description d; fd_tags d; fd_status d; fd_content_type d;
               fd_sensitivity d; fd_custom_fields d; fd_date_created d;
               fd_filename d; fd_path d].

Definition max_id (rows : list FileRecord) : Z :=
  fold_right (fun r m => Z.max (id r) m) 0 rows.

(** [AUTOINCREMENT]: one more than the largest row id the table holds or
    has ever been given. *)
Definition next_id (db : VaultDatabase) : Z :=
  Z.max (sqlite_sequence db) (max_id (files db)) + 1.

Definition row_of (i : Z) (d : FileData) : FileRecord :=
  mkFileRecord i (fd_description d) (fd_tags d) (fd_status d) (fd_content_type d)
    (fd_sensitivity d) (fd_custom_fields d) (fd_date_created d)
    (fd_filename d) (fd_path d).

Definition has_path (p : string) (db : VaultDatabase) : bool :=
  existsb (fun r => String.eqb (path r) p) (files db).

(** [INSERT]: the [UNIQUE] constraint on [path] refuses a second row with
    the same path; otherwise the row is appended under a fresh id, which
    is [lastrowid]. *)
Definition insert (d : FileData) (db : VaultDatabase) : sql_error + (Z * VaultDatabase) :=
  if has_path (fd_path d) db
  then inl (IntegrityError "UNIQUE constraint failed: files.path")
  else let i := next_id db in
       inr (i, mkVaultDatabase (files db ++ [row_of i d]) i).

Definition select (keep : FileRecord -> bool) (db : VaultDatabase) : list FileRecord :=
  filter keep (files db).

(** The nine [TEXT] columns. *)
Inductive column : Type :=
| col_description | col_tags | col_status | col_content_type | col_sensitivity
| col_custom_fields | col_date_created | col_filename | col_path.

Definition column_name (c : column) : string :=
  match c with
  | col_description => "description"
  | col_tags => "tags"
  | col_status => "status"
  | col_content_type => "content_type"
  | col_sensitivity => "sensitivity"
  | col_custom_fields => "custom_fields"
  | col_date_created => "date_created"
  | col_filename => "filename"
  | col_path => "path"
  end.

Definition text_columns : list column :=
  [col_description; col_tags; col_status; col_content_type; col_sensitivity;
   col_custom_fields; col_date_created; col_filename; col_path].

Definition column_of_name (field : string) : option column :=
  find (fun c => String.eqb (column_name c) field) text_columns.

Definition set_column (c : column) (v : string) (r : FileRecord) : FileRecord :=
  match c with
  | col_description => mkFileRecord (id r) v (tags r) (status r) (content_type r) (sensitivity r) (custom_fields r) (date_created r) (filename r) (path r)
  | col_tags => mkFileRecord (id r) (description r) v (status r) (content_type r) (sensitivity r) (custom_fields r) (date_created r) (filename r) (path r)
  | col_status => mkFileRecord (id r) (description r) (tags r) v (content_type r) (sensitivity r) (custom_fields r) (date_created r) (filename r) (path r)
  | col_content_type => mkFileRecord (id r) (description r) (tags r) (status r) v (sensitivity r) (custom_fields r) (date_created r) (filename r) (path r)
  | col_sensitivity => mkFileRecord (id r) (description r) (tags r) (status r) (content_type r) v (custom_fields r) (date_created r) (filename r) (path r)
  | col_custom_fields => mkFileRecord (id r) (description r) (tags r) (status r) (content_type r) (sensitivity r) v (date_created r) (filename r) (path r)
  | col_date_created => mkFileRecord (id r) (description r) (tags r) (status r) (content_type r) (sensitivity r) (custom_fields r) v (filename r) (path r)
  | col_filename => mkFileRecord (id r) (description r) (tags r) (status r) (content_type r) (sensitivity r) (custom_fields r) (date_created r) v (path r)
  | col_path => mkFileRecord (id r) (description r) (tags r) (status r) (content_type r) (sensitivity r) (custom_fields r) (date_created r) (filename r) v
  end.

Definition update_row (c : column) (v : string) (i : Z) (r : FileRecord) : FileRecord :=
  if id r =? i then set_column c v r else r.

(** Would giving path [v] to the rows with id [i] break [UNIQUE]?  Only
    when a row is touched at all, and then when another row already has
    [v] or when several rows are touched. *)
Definition path_collision (v : string) (i : Z) (rows : list FileRecord) : bool :=
  let touched := filter (fun r => id r =? i) rows in
  match touched with
  | [] => false
  | [_] => existsb (fun r => negb (id r =? i) && String.eqb (path r) v) rows
  | _ => true
  end.

(** [UPDATE files SET c=? WHERE id=?] for a text column [c]: every row
    with that id gets the value; no matching row is not an error. *)
Definition update_column (c : column) (v : string) (i : Z) (db : VaultDatabase)
  : sql_error + VaultDatabase :=
  match c with
  | col_path =>
      if path_collision v i (files db)
      then inl (IntegrityError "UNIQUE constraint failed: files.path")
      else inr (mkVaultDatabase (map (update_row c v i) (files db)) (sqlite_sequence db))
  | _ => inr (mkVaultDatabase (map (update_row c v i) (files db)) (sqlite_sequence db))
  end.

(** The engine on statements other than those above: what it makes of an
    [UPDATE] whose interpolated field text is not one of the nine column
    names as declared (the row id and its aliases, other spellings,
    unknown names, text that is not a name at all). *)
Definition other_statements : Type :=
  string -> list sqlval -> VaultDatabase -> sql_error + VaultDatabase.

(** An engine that refuses every such statement. *)
Definition refuse_others : other_statements :=
  fun _ _ _ => inl (OperationalError "no such column").

(** Executing the text [update_statement field] with parameters
    [(value, file_id)]. *)
Definition execute_update (others : other_statements)
    (field value : string) (file_id : Z) (db : VaultDatabase)
  : sql_error + VaultDatabase :=
  match column_of_name field with
  | Some c => update_column c value file_id db
  | None => others (update_statement field) [SqlText value; SqlInt file_id] db
  end.

End Sqlite.

(** *** The methods of [VaultDatabase] *)

(** [add_file_metadata]: the new id, or [None] after either exception
    handler; the [with] block rolls back on an exception. *)
Definition add_file_metadata (file_data : FileData) (db : VaultDatabase) : outcome (option Z) :=
  let call := Executed Sqlite.insert_statement (Sqlite.insert_params file_data) in
  match Sqlite.insert file_data db with
  | inr (lastrowid, db') => mkOutcome (Some lastrowid) db' [call]
  | inl (IntegrityError _) => mkOutcome None db [call; Printed MsgDuplicatePath]
  | inl e => mkOutcome None db [call; Printed (MsgAddError e)]
  end.

(** [get_file_metadata(filename=None, path=None)]: [if path:] and
    [elif filename:] test truthiness, so [None] and the empty string both
    count as absent.  The arguments are named [by_filename] and [by_path]
    here, [filename] and [path] being the columns. *)
Definition given (a : option string) : option string :=
  match a with
  | Some s => if PyStr.truthy s then Some s else None
  | None => None
  end.

Definition get_file_metadata (by_filename by_path : option string) (db : VaultDatabase)
  : outcome (list FileRecord) :=
  match given by_path with
  | Some p =>
      mkOutcome (Sqlite.select (fun r => String.eqb (path r) p) db) db
                [Executed Sqlite.select_by_path [SqlText p]]
  | None =>
      match given by_filename with
      | Some f =>
          mkOutcome (Sqlite.select (fun r => String.eqb (filename r) f) db) db
                    [Executed Sqlite.select_by_filename [SqlText f]]
      | None =>
          mkOutcome (Sqlite.select (fun _ => true) db) db
                    [Executed Sqlite.select_all []]
      end
  end.

(** [update_file_metadata]: the statement is built from [field] as it
    comes and executed; [True] unless the engine raised. *)
Definition update_file_metadata (others : Sqlite.other_statements)
    (file_id : Z) (field value : string) (db : VaultDatabase) : outcome bool :=
  let call := Executed (Sqlite.update_statement field) [SqlText value; SqlInt file_id] in
  match Sqlite.execute_update others field value file_id db with
  | inr db' => mkOutcome true db' [call]
  | inl e => mkOutcome false db [call; Printed (MsgUpdateError e)]
  end.

(** Stores the engine can hold: row ids and paths are unique, and the
    [AUTOINCREMENT] counter has not gone below its start. *)
Record well_formed (db : VaultDatabase) : Prop := mkWellFormed {
  wf_ids : NoDup (map id (files db));
  wf_paths : NoDup (map path (files db));
  wf_sequence : 0 <= sqlite_sequence db
}.

(** ** The content analyzer *)

(** A call into the file system or a library: it returns or raises. *)
Inductive attempt (A : Type) : Type :=
| Returned (a : A)
| Raised (msg : string).
Arguments Returned {A} _.
Arguments Raised {A} _.

(** What [analyze_pdf] meets: [import PyPDF2] fails; opening or parsing
    raises; or a reader with its metadata title ([None] when there is no
    metadata or no title) and what [extract_text] does on the first page
    ([None] when the document has no page). *)
Inductive pdf_library : Type :=
| PdfMissing
| PdfUnreadable (msg : string)
| PdfOpened (title : option string) (first_page : option (attempt string)).

(** What [analyze_docx] meets, likewise; an opened document gives the texts
    of its paragraphs. *)
Inductive docx_library : Type :=
| DocxMissing
| DocxUnreadable (msg : string)
| DocxOpened (paragraphs : list string).

(** An existing file as the analyzer sees it: [stat], the modification
    time already formatted, the decoded text for [open(..., 'r')], and the
    two document libraries applied to it. *)
Record File : Type := mkFile {
  st_size : Z;
  modified_text : string;
  text_content : attempt string;
  pdf : pdf_library;
  docx : docx_library
}.

(** The dictionary [analysis]. *)
Record Analysis : Type := mkAnalysis {
  size_human : string;
  modified : string;
  extension : string;
  content_preview : string;
  detected_title : string;
  smart_category : string;
  suggested_tags : list string
}.

(** The dictionary a type-specific analyzer returns; [analyze_text_file]
    sets no ['suggested_tags'] key. *)
Record Extraction : Type := mkExtraction {
  x_content_preview : string;
  x_detected_title : string;
  x_smart_category : string;
  x_suggested_tags : option (list string)
}.

(** [analysis.update(result)] *)
Definition update_analysis (a : Analysis) (x : Extraction) : Analysis :=
  mkAnalysis (size_human a) (modified a) (extension a)
    (x_content_preview x) (x_detected_title x) (x_smart_category x)
    (match x_suggested_tags x with Some t => t | None => suggested_tags a end).

Module PyPath.

(** [Path.name] of a resolved path: what follows the last separator. *)
Definition name (p : string) : string := last (PyStr.split "/"%char p) EmptyString.

(** Index of the last occurrence of [c], as [str.rfind]. *)
Fixpoint rfind (c : ascii) (s : string) : option nat :=
  match s with
  | EmptyString => None
  | String d r =>
      match rfind c r with
      | Some i => Some (S i)
      | None => if Ascii.eqb c d then Some O else None
      end
  end.

Fixpoint drop (n : nat) (s : string) : string :=
  match n, s with
  | S m, String _ r => drop m r
  | _, _ => s
  end.

(** [Path.suffix]: from the last dot of the name on, unless that dot
    starts or ends the name. *)
Definition suffix (p : string) : string :=
  let n := name p in
  match rfind "."%char n with
  | Some i => if ((0 <? i) && (i <? String.length n - 1))%nat then drop i n else EmptyString
  | None => EmptyString
  end.

End PyPath.

Definition tags_pdf : list string := ["📄 PDF"; "📋 Document"].
Definition tags_docx : list string := ["📄 Document"; "💼 Business"].
Definition tags_research : list string := ["🔬 Research"; "📊 Analysis"].
Definition tags_legal : list string := ["⚖️ Legal"; "📋 Official"].
Definition tags_business : list string := ["💼 Business"; "🎯 Strategy"].

Definition analyze_pdf (f : File) : Extraction :=
  let tagged preview title := mkExtraction preview title "document_pdf" (Some tags_pdf) in
  match pdf f with
  | PdfMissing =>
      tagged "NOTE: Install PyPDF2 (`pip install PyPDF2`) for PDF content preview." ""
  | PdfUnreadable msg => tagged ("PDF analysis failed: " ++ msg) ""
  | PdfOpened title first_page =>
      let detected := match title with Some t => t | None => "" end in
      match first_page with
      | None => tagged "Could not read PDF." detected
      | Some (Raised msg) => tagged ("PDF analysis failed: " ++ msg) detected
      | Some (Returned text) =>
          if PyStr.truthy text
          then tagged (PyStr.take 250 (PyStr.strip text) ++ "...") detected
          else tagged "Could not read PDF." detected
      end
  end.

(** The paragraph loop of [analyze_docx]: stripped non-empty texts while
    fewer than 300 characters have been collected. *)
Fixpoint docx_parts (paragraphs : list string) (char_count : nat) : list string :=
  match paragraphs with
  | [] => []
  | para :: rest =>
      let text := PyStr.strip para in
      if PyStr.truthy text && (char_count <? 300)%nat
      then text :: docx_parts rest (char_count + String.length text)
      else docx_parts rest char_count
  end.

Definition analyze_docx (f : File) : Extraction :=
  let tagged preview title := mkExtraction preview title "document_docx" (Some tags_docx) in
  match docx f with
  | DocxMissing =>
      tagged "NOTE: Install python-docx (`pip install python-docx`) for DOCX content preview." ""
  | DocxUnreadable msg => tagged ("DOCX analysis failed: " ++ msg) ""
  | DocxOpened paragraphs =>
      let first_para := match paragraphs with p :: _ => PyStr.strip p | [] => "" end in
      let title :=
        if PyStr.truthy first_para && (String.length first_para <? 100)%nat
        then first_para else "" in
      match docx_parts paragraphs 0 with
      | [] => tagged "Could not read DOCX." title
      | parts => tagged (PyStr.take 300 (PyStr.join (String PyStr.newline "") parts) ++ "...") title
      end
  end.

(** The title [analyze_text_file] takes from what it read: only the first
    line counts, and only when it is not blank. *)
Definition text_title (content : string) : string :=
  let first_line := PyStr.strip (hd EmptyString (PyStr.split PyStr.newline content)) in
  if PyStr.truthy first_line
  then if PyStr.startswith "#" first_line
       then PyStr.strip (PyStr.remove_char "#"%char first_line)
       else PyStr.take 70 first_line
  else "".

Definition analyze_text_file (f : File) : Extraction :=
  match text_content f with
  | Returned all =>
      let content := PyStr.take 500 all in
      mkExtraction (PyStr.strip (PyStr.take 250 content) ++ "...") (text_title content)
        "text_file" None
  | Raised msg => mkExtraction ("Could not read file: " ++ msg) "" "text_file" None
  end.

Definition text_extensions : list string :=
  [".txt"; ".md"; ".py"; ".js"; ".json"; ".sh"; ".sql"].

Definition in_list (s : string) (l : list string) : bool :=
  existsb (String.eqb s) l.

Definition keywords_research : list string := ["research"; "study"; "analysis"].
Definition keywords_legal : list string := ["legal"; "contract"; "agreement"].
Definition keywords_business : list string := ["business"; "plan"; "proposal"].

(** The filename step at the end of [analyze_file_content]. *)
Definition detect_from_filename (filename_lower : string) (a : Analysis) : Analysis :=
  let set category tags :=
    mkAnalysis (size_human a) (modified a) (extension a)
      (content_preview a) (detected_title a) category tags in
  if PyStr.any_in keywords_research filename_lower then set "research_document" tags_research
  else if PyStr.any_in keywords_legal filename_lower then set "legal_document" tags_legal
  else if PyStr.any_in keywords_business filename_lower then set "business_document" tags_business
  else a.

(** [analyze_file_content] for the file [f] found at the resolved path
    [file_path].  The three analyzers catch their own exceptions, so the
    handler around the dispatch is never entered. *)
Definition analyze_file_content (file_path : string) (f : File) : Analysis :=
  let analysis :=
    mkAnalysis (human_readable_size (st_size f)) (modified_text f)
      (PyStr.lower (PyPath.suffix file_path)) "N/A" "" "unknown" [] in
  let analysis :=
    if String.eqb (extension analysis) ".pdf" then update_analysis analysis (analyze_pdf f)
    else if in_list (extension analysis) [".docx"; ".doc"] then update_analysis analysis (analyze_docx f)
    else if in_list (extension analysis) text_extensions then update_analysis analysis (analyze_text_file f)
    else analysis in
  detect_from_filename (PyStr.lower (PyPath.name file_path)) analysis.

(** ** The interactive workflow *)

(** What the workflow runs against.  [resolve] gives the absolute form of
    a path string.  [probe] is what the two file-system calls at the start
    of [process_new_file], [Path.resolve()] and [Path.exists()], do for the
    path with that absolute form: one of them raises (a name that is too
    long, an embedded NUL, a permission error), or they return and the
    file is there or is not.  [now_isoformat] is the clock read at save
    time. *)
Record Environment : Type := mkEnvironment {
  resolve : string -> string;
  probe : string -> attempt (option File);
  now_isoformat : string
}.

(** The file at a resolved path, when the calls returned and found one. *)
Definition existing (env : Environment) (p : string) : option File :=
  match probe env p with
  | Returned found => found
  | Raised _ => None
  end.

(** The mutable surroundings of a run: the database, the lines still to be
    typed at the terminal, and what was printed or executed so far. *)
Record World : Type := mkWorld {
  database : VaultDatabase;
  stdin : list string;
  trace : list event
}.

(** A computation that reads and changes the world; [None] is an exception
    that escapes it.  Two calls of the workflow can raise: [input()], with
    [EOFError] when the terminal is closed, and the path check at the
    start of [process_new_file].  Nothing in the workflow catches either. *)
Definition Workflow (A : Type) : Type := World -> option A * World.

Definition ret {A} (a : A) : Workflow A := fun w => (Some a, w).

(** An exception leaves the world as it is. *)
Definition raise {A} : Workflow A := fun w => (None, w).

Definition bind {A B} (c : Workflow A) (k : A -> Workflow B) : Workflow B :=
  fun w =>
    match c w with
    | (Some a, w') => k a w'
    | (None, w') => (None, w')
    end.

Declare Scope workflow_scope.
Delimit Scope workflow_scope with workflow.
Notation "x <- c ;; k" := (bind c (fun x => k))
  (at level 61, c at next level, right associativity) : workflow_scope.
Notation "c ;; k" := (bind c (fun _ => k))
  (at level 61, right associativity) : workflow_scope.
Local Open Scope workflow_scope.

Definition input : Workflow string :=
  fun w =>
    match stdin w with
    | [] => (None, w)
    | line :: rest => (Some line, mkWorld (database w) rest (trace w))
    end.

Definition print (m : message) : Workflow unit :=
  fun w => (Some tt, mkWorld (database w) (stdin w) (trace w ++ [Printed m])).

(** A method of [self.db] run on the current database. *)
Definition on_store {A} (method : VaultDatabase -> outcome A) : Workflow A :=
  fun w =>
    let o := method (database w) in
    (Some (value o), mkWorld (db_after o) (stdin w) (trace w ++ log o)).

Definition display_file_analysis (name : string) (analysis : Analysis) : Workflow unit :=
  print (MsgPanel
    ([name; size_human analysis; modified analysis]
     ++ (if PyStr.truthy (detected_title analysis) then [detected_title analysis] else [])
     ++ (if PyStr.truthy (content_preview analysis) then [content_preview analysis] else []))).

Definition presets : list (string * list string) :=
  [("1", ["📄 Document"; "💼 Business"]);
   ("2", ["🔬 Research"; "📊 Analysis"]);
   ("3", ["⚖️ Legal"; "📋 Official"]);
   ("4", ["💻 Code"; "🔧 Technical"]);
   ("5", ["🎨 Creative"; "💡 Ideas"]);
   ("6", ["📝 Notes"; "🤔 Personal"])].

(** [d.get(k)] on a dictionary written as its items. *)
Definition dict_get {V} (d : list (string * V)) (k : string) : option V :=
  option_map snd (find (fun kv => String.eqb (fst kv) k) d).

Definition interactive_tag_selection (suggested : list string) : Workflow string :=
  print (MsgPanel
    ((match suggested with [] => [] | _ => [PyStr.join ", " suggested] end)
     ++ map (fun kv => fst kv ++ ". " ++ PyStr.join ", " (snd kv)) presets)) ;;
  line <- input ;;
  let choice := PyStr.strip line in
  if String.eqb choice "" && (match suggested with [] => false | _ => true end)
  then ret (PyStr.join ", " suggested)
  else match dict_get presets choice with
       | Some preset => ret (PyStr.join ", " preset)
       | None =>
           if String.eqb choice "9"
           then custom <- input ;; ret (PyStr.strip custom)
           else ret "Uncategorized"
       end.

Definition smart_category_selection (detected_category : string) : Workflow string :=
  print (MsgPanel [detected_category]) ;;
  line <- input ;;
  ret (PyStr.or_else (PyStr.strip line) detected_category).

Definition sensitivity_of (choice : string) : string :=
  match dict_get [("1", "public"); ("3", "confidential")] choice with
  | Some s => s
  | None => "internal"
  end.

Definition status_of (choice : string) : string :=
  match dict_get [("2", "in_progress"); ("3", "review"); ("4", "completed"); ("5", "archived")] choice with
  | Some s => s
  | None => "new"
  end.

(** The test on the answer to "Save to database? (Y/n)". *)
Definition confirmed (answer : string) : bool :=
  in_list (PyStr.lower (PyStr.strip answer)) [""; "y"; "yes"].

(** Truthiness of what [add_file_metadata] returned. *)
Definition saved (r : option Z) : bool :=
  match r with
  | Some i => negb (i =? 0)
  | None => false
  end.

Definition process_new_file (env : Environment) (file_path_str : string) : Workflow unit :=
  let file_path := resolve env file_path_str in
  match probe env file_path with
  | Raised _ => raise
  | Returned None => print (MsgFileNotFound file_path)
  | Returned (Some f) =>
      let name := PyPath.name file_path in
      print (MsgProcessing name) ;;
      let analysis := analyze_file_content file_path f in
      display_file_analysis name analysis ;;
      let default_desc := PyStr.or_else (detected_title analysis) name in
      line <- input ;;
      let description := PyStr.or_else (PyStr.strip line) default_desc in
      content_type <- smart_category_selection (smart_category analysis) ;;
      tags <- interactive_tag_selection (suggested_tags analysis) ;;
      line <- input ;;
      let sensitivity := sensitivity_of (PyStr.strip line) in
      line <- input ;;
      let status := status_of (PyStr.strip line) in
      line <- input ;;
      let custom_fields := PyStr.strip line in
      print (MsgPanel [description; content_type; tags; sensitivity; status]) ;;
      answer <- input ;;
      if confirmed answer
      then
        let file_data :=
          mkFileData description tags status content_type sensitivity custom_fields
            (now_isoformat env) name file_path in
        r <- on_store (add_file_metadata file_data) ;;
        if saved r then print MsgSaved else print MsgSaveFailed
      else print MsgCancelled
  end.

(** ** Definitions used in the statements *)

(** The number of divisions by 1024 that bring a byte count below 1024,
    five at most. *)
Definition unit_index (n : Z) : nat :=
  if n <? 1024 then 0
  else if n <? 1024 ^ 2 then 1
  else if n <? 1024 ^ 3 then 2
  else if n <? 1024 ^ 4 then 3
  else if n <? 1024 ^ 5 then 4
  else 5.

Definition unit_names : list string := size_units ++ ["PB"].

(** A record as the workflow would collect it, for the path [p]. *)
Definition sample_data (p : string) : FileData :=
  mkFileData "Quarterly report" "Uncategorized" "new" "text_file" "internal" ""
    "2024-05-01T10:00:00" "report.txt" p.

(** The store after one insert into the empty table. *)
Definition one_record_store : VaultDatabase :=
  db_after (add_file_metadata (sample_data "/vault/report.txt") empty_database).

(** [update_file_metadata(file_id, "status", "archived")] *)
Definition archive (others : Sqlite.other_statements) (file_id : Z) (db : VaultDatabase)
  : outcome bool :=
  update_file_metadata others file_id "status" "archived" db.

(** A row with its status replaced and nothing else. *)
Definition with_status (v : string) (r : FileRecord) : FileRecord :=
  mkFileRecord (id r) (description r) (tags r) v (content_type r) (sensitivity r)
    (custom_fields r) (date_created r) (filename r) (path r).

(** The field set of a FileRecord. *)
Definition file_record_fields : list string :=
  ["id"; "description"; "tags"; "status"; "content_type"; "sensitivity";
   "custom_fields"; "date_created"; "filename"; "path"].




(** A text file with the given content. *)
Definition text_file (content : string) : File :=
  mkFile (Z.of_nat (String.length content)) "2024-05-01 10:00" (Returned content)
    PdfMissing DocxMissing.







(** A vault holding one markdown file, in which a name of more than 255
    characters makes the path check raise, and a terminal session that
    accepts every default and then declines to save. *)
Definition sample_environment : Environment :=
  mkEnvironment (fun p => p)
    (fun p =>
       if (255 <? String.length (PyPath.name p))%nat then Raised "[Errno 36] File name too long"
       else if String.eqb p "/vault/README.md" then Returned (Some (text_file "# Report Title"))
       else Returned None)
    "2024-05-01T10:00:00".

(** A path whose last component has 300 characters. *)
Definition overlong_path : string :=
  "/vault/" ++ String.concat "" (repeat "a" 300).

Definition declining_session : World :=
  mkWorld one_record_store [""; ""; "0"; ""; ""; ""; " N "] [].

(** ** Search and the main menu *)

(** [str(n)] for an integer. *)
Definition str_of_int (z : Z) : string :=
  if z <? 0 then "-" ++ PyStr.of_N (Z.to_N (- z)) else PyStr.of_N (Z.to_N z).

(** The two built-ins that [search_database] applies to arbitrary text:
    [str.lower] and [str] of a row tuple.  Both are taken as they are in
    Python; nothing below depends on how they print or fold. *)
Record Builtins : Type := mkBuiltins {
  str_lower : string -> string;
  str_row : FileRecord -> string
}.

(** The line printed for a match: [r[0]], [r[8]], [r[2]] and [r[1]], that
    is identifier, filename, tags and description. *)
Definition result_line (r : FileRecord) : string :=
  "  ID " ++ str_of_int (id r) ++ ": " ++ filename r ++ " (" ++ tags r ++ ") - "
  ++ description r.

Fixpoint print_lines (lines : list string) : Workflow unit :=
  match lines with
  | [] => ret tt
  | line :: rest => print (MsgPanel [line]) ;; print_lines rest
  end.

Definition matches_term (py : Builtins) (search_term : string) (r : FileRecord) : bool :=
  PyStr.contains (str_lower py search_term) (str_lower py (str_row py r)).

Definition search_database (py : Builtins) (search_term : string) : Workflow unit :=
  print (MsgPanel [String PyStr.newline "🔍 Searching for '" ++ search_term ++ "'..."]) ;;
  results <- on_store (get_file_metadata None None) ;;
  match filter (matches_term py search_term) results with
  | [] => print (MsgPanel ["❌ No results found."])
  | found => print_lines (map result_line found)
  end.

Definition display_banner : Workflow unit :=
  print (MsgPanel ["🗂️  VAULT MASTER - Interactive File Manager v2.0";
                   "🚀  AI-Enhanced Workflow & Knowledge Management"]).

(** The [while True] loop of [main_menu], unrolled at most [fuel] times.
    The result tells whether the loop was left by its [break]; [false]
    means the unrolling ran out.  The loop has no handler: an exception
    raised under it ends the session. *)
Fixpoint menu_loop (py : Builtins) (env : Environment) (fuel : nat) : Workflow bool :=
  match fuel with
  | O => ret false
  | S fuel' =>
      print (MsgPanel ["MAIN MENU"; "1. Process New File  |  2. Search Database  |  3. Exit"]) ;;
      line <- input ;;
      let choice := PyStr.strip line in
      if String.eqb choice "1" then
        line <- input ;;
        process_new_file env (PyStr.strip line) ;;
        menu_loop py env fuel'
      else if String.eqb choice "2" then
        line <- input ;;
        search_database py (PyStr.strip line) ;;
        menu_loop py env fuel'
      else if String.eqb choice "3" then
        print (MsgPanel ["👋 Goodbye!"]) ;;
        ret true
      else
        print (MsgPanel ["❌ Invalid choice."]) ;;
        menu_loop py env fuel'
  end.

Definition main_menu (py : Builtins) (env : Environment) (fuel : nat) : Workflow bool :=
  display_banner ;; menu_loop py env fuel.

(** ** Definitions used in the further properties *)

(** The number shown by [human_readable_size], from its tenths. *)
Definition tenths_text (t : Z) : string :=
  PyStr.of_N (Z.to_N (t / 10)) ++ "." ++ PyStr.of_N (Z.to_N (t mod 10)).




(** A later world of the same run: rows were only appended, input was only
    consumed, the trace only grew, and a well-formed store stayed so. *)
Record extends (w w' : World) : Prop := mkExtends {
  ext_files : exists added, files (database w') = (files (database w) ++ added)%list;
  ext_stdin : exists used, stdin w = (used ++ stdin w')%list;
  ext_trace : exists new, trace w' = (trace w ++ new)%list;
  ext_well_formed : well_formed (database w) -> well_formed (database w')
}.

Definition monotone {A} (c : Workflow A) : Prop :=
  forall w, extends w (snd (c w)).

(** A computation that leaves the database alone and executes nothing. *)
Definition read_only {A} (c : Workflow A) : Prop :=
  forall w, database (snd (c w)) = database w
            /\ exists ms, trace (snd (c w)) = (trace w ++ map Printed ms)%list.

(** A computation that does so at least when it ends with an exception. *)
Definition eof_safe {A} (c : Workflow A) : Prop :=
  forall w, fst (c w) = None ->
            database (snd (c w)) = database w
            /\ exists ms, trace (snd (c w)) = (trace w ++ map Printed ms)%list.

(** A computation that never raises. *)
Definition never_raises {A} (c : Workflow A) : Prop :=
  forall w, fst (c w) <> None.

(** Python built-ins for the examples: ASCII folding and a row printed as
    its fields between bars. *)
Definition sample_builtins : Builtins :=
  mkBuiltins PyStr.lower
    (fun r => PyStr.join "|" [str_of_int (id r); description r; tags r; status r;
                               content_type r; sensitivity r; custom_fields r;
                               date_created r; filename r; path r]).

(** Two records at different paths. *)
Definition two_record_store : VaultDatabase :=
  db_after (add_file_metadata (sample_data "/vault/a.txt") one_record_store).

(** The closed sets of the two classification prompts. *)
Definition sensitivity_levels : list string := ["public"; "internal"; "confidential"].
Definition status_values : list string :=
  ["new"; "in_progress"; "review"; "completed"; "archived"].

(** A tuple as [process_new_file] can hand it to the store for the path
    it was called with. *)
Definition workflow_record (env : Environment) (file_path_str : string) (d : FileData) : Prop :=
  fd_path d = resolve env file_path_str
  /\ fd_filename d = PyPath.name (resolve env file_path_str)
  /\ fd_date_created d = now_isoformat env
  /\ In (fd_sensitivity d) sensitivity_levels
  /\ In (fd_status d) status_values.

(** A computation whose only possible effect on the database is one call
    of [add_file_metadata] with a tuple satisfying [P]. *)
Definition adds_only (P : FileData -> Prop) {A} (c : Workflow A) : Prop :=
  forall w,
    database (snd (c w)) = database w
    \/ exists d, P d /\ database (snd (c w)) = db_after (add_file_metadata d (database w)).

(** A session that ends before the confirmation. *)
Definition interrupted_session : World :=
  mkWorld one_record_store ["My notes"; ""; "9"] [].


(** * Verified properties *)

(** ** Size formatting *)

Section SizeFormatting.

Lemma float_of_int_exact (n : Z) :
  0 <= n < 2 ^ 53 -> float_of_int n = n.
Proof.
  intros [Hlo Hhi]. unfold float_of_int.
  rewrite Z.abs_eq by assumption.
  destruct (Z.eq_dec n 0) as [-> | Hnz]; [reflexivity |].
  assert (Z.log2 n < 53) by (apply Z.log2_lt_pow2; lia).
  destruct (Z.leb_spec (Z.log2 n + 1) 53); [reflexivity | lia].
Qed.

Lemma round_half_even_lower (a b : Z) :
  0 < b -> a / b <= round_half_even a b.
Proof.
  intros Hb. unfold round_half_even.
  destruct (2 * (a mod b) <? b); [lia |].
  destruct (b <? 2 * (a mod b)); [lia |].
  destruct (Z.even (a / b)); lia.
Qed.

Lemma float_of_int_large (n : Z) :
  2 ^ 53 <= n -> 2 ^ 53 <= float_of_int n.
Proof.
  intros Hn. unfold float_of_int.
  assert (Hpos : 0 < n) by lia.
  rewrite Z.abs_eq by lia.
  destruct (Z.leb_spec (Z.log2 n + 1) 53) as [_ | Hbits]; [assumption |].
  rewrite Z.sgn_pos by assumption.
  set (s := Z.log2 n + 1 - 53) in *.
  assert (Hs : 0 < s) by (unfold s; lia).
  assert (Hpow : 0 < 2 ^ s) by (apply Z.pow_pos_nonneg; lia).
  pose proof (round_half_even_lower n (2 ^ s) Hpow) as Hround.
  assert (Hq : 2 ^ 52 <= n / 2 ^ s).
  { apply Z.div_le_lower_bound; [assumption |].
    rewrite <- Z.pow_add_r by lia.
    replace (s + 52) with (Z.log2 n) by (unfold s; lia).
    apply Z.log2_spec; assumption. }
  assert (2 ^ 52 * 2 ^ 1 <= round_half_even n (2 ^ s) * 2 ^ s).
  { apply Z.mul_le_mono_nonneg; try lia.
    apply Z.pow_le_mono_r; lia. }
  lia.
Qed.

(** Below [2^53] nothing is lost by the conversion, and from there on the
    float is too large for any threshold of the loop. *)
Lemma float_of_int_ltb (n t : Z) :
  0 <= n -> t <= 2 ^ 53 -> (float_of_int n <? t) = (n <? t).
Proof.
  intros Hn Ht.
  destruct (Z.lt_ge_cases n (2 ^ 53)) as [Hsmall | Hbig].
  - rewrite float_of_int_exact by lia. reflexivity.
  - pose proof (float_of_int_large n Hbig).
    destruct (Z.ltb_spec (float_of_int n) t), (Z.ltb_spec n t); lia || reflexivity.
Qed.

End SizeFormatting.



(** ** The metadata store *)

Section StoreFacts.

Lemma has_path_In (p : string) (db : VaultDatabase) :
  Sqlite.has_path p db = true <-> In p (map path (files db)).
Proof.
  unfold Sqlite.has_path. rewrite existsb_exists, in_map_iff.
  split; intros [r [H1 H2]]; exists r.
  - apply String.eqb_eq in H2. auto.
  - split; [assumption | apply String.eqb_eq; assumption].
Qed.

Lemma has_path_fresh (p : string) (db : VaultDatabase) :
  Sqlite.has_path p db = false <-> ~ In p (map path (files db)).
Proof.
  rewrite <- has_path_In. destruct (Sqlite.has_path p db); split; congruence.
Qed.

Lemma max_id_nonneg (rows : list FileRecord) : 0 <= Sqlite.max_id rows.
Proof. induction rows as [| r rows IH]; simpl; lia. Qed.

Lemma max_id_bound (rows : list FileRecord) (r : FileRecord) :
  In r rows -> id r <= Sqlite.max_id rows.
Proof.
  induction rows as [| r' rows IH]; simpl; [tauto |].
  intros [-> | Hin]; [lia | specialize (IH Hin); lia].
Qed.

Lemma next_id_positive (db : VaultDatabase) : 0 < Sqlite.next_id db.
Proof. unfold Sqlite.next_id. pose proof (max_id_nonneg (files db)). lia. Qed.

Lemma next_id_fresh (db : VaultDatabase) :
  ~ In (Sqlite.next_id db) (map id (files db)).
Proof.
  rewrite in_map_iff. intros [r [Heq Hin]].
  apply max_id_bound in Hin. unfold Sqlite.next_id in Heq. lia.
Qed.

Lemma select_fresh_path (p : string) (rows : list FileRecord) :
  ~ In p (map path rows) ->
  filter (fun r => String.eqb (path r) p) rows = [].
Proof.
  induction rows as [| r rows IH]; simpl; [reflexivity |].
  intros Hfresh. destruct (String.eqb_spec (path r) p) as [Heq | _].
  - exfalso. apply Hfresh. left. assumption.
  - apply IH. intros Hin. apply Hfresh. right. assumption.
Qed.

Lemma NoDup_snoc {A} (l : list A) (a : A) :
  NoDup l -> ~ In a l -> NoDup (l ++ [a]).
Proof.
  induction l as [| x l IH]; simpl; intros Hnd Hnin.
  - constructor; [tauto | constructor].
  - inversion Hnd as [| ? ? Hx Hl]; subst. constructor.
    + rewrite in_app_iff. simpl. intros [H | [H | []]]; [tauto | subst; tauto].
    + apply IH; tauto.
Qed.

(** A successful insert appends one row under a fresh positive id. *)
Lemma insert_fresh (d : FileData) (db : VaultDatabase) :
  Sqlite.has_path (fd_path d) db = false ->
  add_file_metadata d db
  = mkOutcome (Some (Sqlite.next_id db))
      (mkVaultDatabase (files db ++ [Sqlite.row_of (Sqlite.next_id db) d]) (Sqlite.next_id db))
      [Executed Sqlite.insert_statement (Sqlite.insert_params d)].
Proof.
  intros Hfresh. unfold add_file_metadata, Sqlite.insert. rewrite Hfresh. reflexivity.
Qed.

Lemma insert_duplicate (d : FileData) (db : VaultDatabase) :
  Sqlite.has_path (fd_path d) db = true ->
  add_file_metadata d db
  = mkOutcome None db
      [Executed Sqlite.insert_statement (Sqlite.insert_params d); Printed MsgDuplicatePath].
Proof.
  intros Hdup. unfold add_file_metadata, Sqlite.insert. rewrite Hdup. reflexivity.
Qed.

(** Inserting keeps a store well formed. *)
Lemma add_file_metadata_well_formed (d : FileData) (db : VaultDatabase) :
  well_formed db -> well_formed (db_after (add_file_metadata d db)).
Proof.
  intros [Hids Hpaths Hseq].
  destruct (Sqlite.has_path (fd_path d) db) eqn:Hp.
  - rewrite insert_duplicate by assumption. simpl. constructor; assumption.
  - rewrite insert_fresh by assumption. simpl. constructor; simpl.
    + rewrite map_app. simpl. apply NoDup_snoc; [assumption | apply next_id_fresh].
    + rewrite map_app. simpl. apply NoDup_snoc; [assumption |].
      apply has_path_fresh. assumption.
    + pose proof (next_id_positive db). lia.
Qed.

End StoreFacts.

(** C2. In every store, inserting a record whose path is not present
    succeeds and returns a positive identifier, the record being appended
    under that identifier; inserting a record whose path is present returns
    [None] without raising and leaves the whole store, hence the record
    already held for that path, as it was.  So a second insert of the same
    path, right after a first successful one, is refused and changes
    nothing. *)
Theorem add_file_metadata_unique_path (db : VaultDatabase) (d : FileData) :
  (~ In (fd_path d) (map path (files db)) ->
     exists i,
       0 < i
       /\ value (add_file_metadata d db) = Some i
       /\ files (db_after (add_file_metadata d db)) = (files db ++ [Sqlite.row_of i d])%list
       /\ forall d2, fd_path d2 = fd_path d ->
            value (add_file_metadata d2 (db_after (add_file_metadata d db))) = None
            /\ db_after (add_file_metadata d2 (db_after (add_file_metadata d db)))
               = db_after (add_file_metadata d db))
  /\ (In (fd_path d) (map path (files db)) ->
        value (add_file_metadata d db) = None
        /\ db_after (add_file_metadata d db) = db
        /\ In (Printed MsgDuplicatePath) (log (add_file_metadata d db))).
Proof.
  split.
  - intros Hfresh. apply has_path_fresh in Hfresh.
    exists (Sqlite.next_id db). rewrite (insert_fresh d db Hfresh). simpl.
    split; [apply next_id_positive |]. split; [reflexivity |]. split; [reflexivity |].
    intros d2 Hsame.
    rewrite insert_duplicate; [simpl; split; reflexivity |].
    apply has_path_In. simpl. rewrite map_app, in_app_iff. right. simpl. left.
    symmetry. assumption.
  - intros Hdup. apply has_path_In in Hdup.
    rewrite (insert_duplicate d db Hdup). simpl. tauto.
Qed.

Lemma add_file_metadata_unique_path_witness :
  exists i,
    0 < i
    /\ value (add_file_metadata (sample_data "/vault/report.txt") empty_database) = Some i
    /\ files (db_after (add_file_metadata (sample_data "/vault/report.txt") empty_database))
       = ([] ++ [Sqlite.row_of i (sample_data "/vault/report.txt")])%list
    /\ forall d2, fd_path d2 = "/vault/report.txt" ->
         value (add_file_metadata d2
                  (db_after (add_file_metadata (sample_data "/vault/report.txt") empty_database)))
         = None
         /\ db_after (add_file_metadata d2
                  (db_after (add_file_metadata (sample_data "/vault/report.txt") empty_database)))
            = db_after (add_file_metadata (sample_data "/vault/report.txt") empty_database).
Proof.
  apply (proj1 (add_file_metadata_unique_path empty_database (sample_data "/vault/report.txt"))).
  simpl. tauto.
Defined.

Section LookupFacts.

(** With unique paths, selecting by the path of a stored row finds that
    row and no other. *)
Lemma select_unique_path (rows : list FileRecord) (r : FileRecord) :
  NoDup (map path rows) -> In r rows ->
  filter (fun x => String.eqb (path x) (path r)) rows = [r].
Proof.
  induction rows as [| x rows IH]; simpl; [tauto |].
  intros Hnd Hin. inversion Hnd as [| ? ? Hx Hrest]; subst.
  destruct Hin as [-> | Hin].
  - rewrite String.eqb_refl. f_equal. apply select_fresh_path. assumption.
  - destruct (String.eqb_spec (path x) (path r)) as [Heq | _].
    + exfalso. apply Hx. rewrite Heq. apply in_map. assumption.
    + apply IH; assumption.
Qed.

Lemma select_map_same_path (f : FileRecord -> FileRecord) (p : string) (rows : list FileRecord) :
  (forall r, path (f r) = path r) ->
  filter (fun x => String.eqb (path x) p) (map f rows)
  = map f (filter (fun x => String.eqb (path x) p) rows).
Proof.
  intros Hf. induction rows as [| x rows IH]; simpl; [reflexivity |].
  rewrite Hf. destruct (String.eqb (path x) p); simpl; rewrite IH; reflexivity.
Qed.

Lemma update_row_absent (c : Sqlite.column) (v : string) (i : Z) (rows : list FileRecord) :
  ~ In i (map id rows) -> map (Sqlite.update_row c v i) rows = rows.
Proof.
  induction rows as [| x rows IH]; simpl; [reflexivity |].
  intros Hnin. unfold Sqlite.update_row at 1.
  destruct (Z.eqb_spec (id x) i) as [Heq | _]; [tauto |].
  f_equal. apply IH. tauto.
Qed.

Lemma column_of_name_name (c : Sqlite.column) :
  Sqlite.column_of_name (Sqlite.column_name c) = Some c.
Proof. destruct c; reflexivity. Qed.

(** On a text column other than [path] the update always goes through. *)
Lemma update_text_column (others : Sqlite.other_statements)
    (c : Sqlite.column) (i : Z) (v : string) (db : VaultDatabase) :
  c <> Sqlite.col_path ->
  update_file_metadata others i (Sqlite.column_name c) v db
  = mkOutcome true
      (mkVaultDatabase (map (Sqlite.update_row c v i) (files db)) (sqlite_sequence db))
      [Executed (Sqlite.update_statement (Sqlite.column_name c)) [SqlText v; SqlInt i]].
Proof.
  intros Hc. unfold update_file_metadata, Sqlite.execute_update.
  rewrite column_of_name_name. destruct c; try reflexivity. congruence.
Qed.

Lemma given_nonempty (p : string) : p <> "" -> given (Some p) = Some p.
Proof. destruct p; simpl; congruence. Qed.

Lemma update_row_id (c : Sqlite.column) (v : string) (i : Z) (r : FileRecord) :
  id (Sqlite.update_row c v i r) = id r.
Proof. unfold Sqlite.update_row. destruct (id r =? i), c; reflexivity. Qed.

Lemma update_row_path (c : Sqlite.column) (v : string) (i : Z) (r : FileRecord) :
  c <> Sqlite.col_path -> path (Sqlite.update_row c v i r) = path r.
Proof.
  intros Hc. unfold Sqlite.update_row.
  destruct (id r =? i), c; try reflexivity. congruence.
Qed.

(** Such an update changes neither identifiers nor paths, so it keeps a
    store well formed. *)
Lemma update_text_column_well_formed (others : Sqlite.other_statements)
    (c : Sqlite.column) (i : Z) (v : string) (db : VaultDatabase) :
  c <> Sqlite.col_path -> well_formed db ->
  well_formed (db_after (update_file_metadata others i (Sqlite.column_name c) v db)).
Proof.
  intros Hc [Hids Hpaths Hseq]. rewrite update_text_column by assumption.
  constructor; simpl; [| | assumption]; rewrite map_map.
  - erewrite map_ext; [exact Hids | intros r; apply update_row_id].
  - erewrite map_ext; [exact Hpaths | intros r; apply update_row_path; assumption].
Qed.

End LookupFacts.

(** C4 (amended). For every record inserted with a non-empty path [P] into
    a store not already containing [P], a lookup by path [P], whatever the
    filename argument, returns exactly one record: its fields are the
    inserted values, [date_created] included, under the positive
    identifier that the insert returned. *)
Theorem get_file_metadata_after_insert
    (db : VaultDatabase) (d : FileData) (by_filename : option string) :
  ~ In (fd_path d) (map path (files db)) ->
  fd_path d <> "" ->
  exists i,
    0 < i
    /\ value (add_file_metadata d db) = Some i
    /\ value (get_file_metadata by_filename (Some (fd_path d))
                (db_after (add_file_metadata d db)))
       = [mkFileRecord i (fd_description d) (fd_tags d) (fd_status d) (fd_content_type d)
            (fd_sensitivity d) (fd_custom_fields d) (fd_date_created d)
            (fd_filename d) (fd_path d)].
Proof.
  intros Hfresh Hnonempty.
  exists (Sqlite.next_id db).
  rewrite (insert_fresh d db) by (apply has_path_fresh; assumption).
  split; [apply next_id_positive |]. split; [reflexivity |].
  unfold get_file_metadata. rewrite given_nonempty by assumption. simpl.
  unfold Sqlite.select. simpl. rewrite filter_app.
  rewrite select_fresh_path by assumption. simpl.
  rewrite String.eqb_refl. reflexivity.
Qed.

Lemma get_file_metadata_after_insert_witness :
  exists i,
    0 < i
    /\ value (add_file_metadata (sample_data "/vault/report.txt") empty_database) = Some i
    /\ value (get_file_metadata None (Some "/vault/report.txt")
                (db_after (add_file_metadata (sample_data "/vault/report.txt") empty_database)))
       = [mkFileRecord i "Quarterly report" "Uncategorized" "new" "text_file" "internal" ""
            "2024-05-01T10:00:00" "report.txt" "/vault/report.txt"].
Proof.
  apply (get_file_metadata_after_insert empty_database (sample_data "/vault/report.txt") None).
  - simpl. tauto.
  - discriminate.
Defined.

(** C4 as stated fails for the empty path: it is not in the store, the
    insert succeeds, and the lookup by that path, taking the empty string
    for no filter, returns both records. *)
Lemma get_file_metadata_empty_path_counterexample :
  ~ In (fd_path (sample_data "")) (map path (files one_record_store))
  /\ value (add_file_metadata (sample_data "") one_record_store) = Some 2
  /\ value (get_file_metadata None (Some (fd_path (sample_data "")))
              (db_after (add_file_metadata (sample_data "") one_record_store)))
     = [Sqlite.row_of 1 (sample_data "/vault/report.txt"); Sqlite.row_of 2 (sample_data "")].
Proof.
  split; [| split; reflexivity].
  simpl. intros [H | []]. discriminate H.
Qed.

(** C3 as stated fails on an identifier that is not in the store: the
    update reports success. *)
Lemma update_unknown_id_counterexample :
  ~ In 7 (map id (files one_record_store))
  /\ value (archive Sqlite.refuse_others 7 one_record_store) = true.
Proof.
  split; [| reflexivity].
  simpl. intros [H | []]. discriminate H.
Qed.

(** C3 (amended). Whatever the store, [update_file_metadata(id, "status",
    "archived")] returns [True]; afterwards every row with that identifier
    has status "archived" and its other fields as before, every other row
    is as before, and no row is added or lost.  In a well-formed store a
    lookup by the path of that record returns the record with the new
    status and nothing else.  For an identifier that is not in the store
    the result is still [True], and the store is unchanged. *)
Theorem update_status_archived
    (others : Sqlite.other_statements) (db : VaultDatabase) (i : Z) :
  value (archive others i db) = true
  /\ files (db_after (archive others i db))
     = map (fun r => if id r =? i then with_status "archived" r else r) (files db)
  /\ sqlite_sequence (db_after (archive others i db)) = sqlite_sequence db
  /\ (forall r, In r (files db) -> id r = i ->
        In (with_status "archived" r) (files (db_after (archive others i db))))
  /\ (forall r, In r (files db) -> id r <> i ->
        In r (files (db_after (archive others i db))))
  /\ (forall r, well_formed db -> In r (files db) -> id r = i -> path r <> "" ->
        value (get_file_metadata None (Some (path r)) (db_after (archive others i db)))
        = [with_status "archived" r])
  /\ (~ In i (map id (files db)) -> db_after (archive others i db) = db).
Proof.
  unfold archive.
  change "status" with (Sqlite.column_name Sqlite.col_status).
  rewrite update_text_column by discriminate. simpl.
  assert (Hrow : forall r, Sqlite.update_row Sqlite.col_status "archived" i r
                           = if id r =? i then with_status "archived" r else r)
    by reflexivity.
  split; [reflexivity |]. split; [reflexivity |]. split; [reflexivity |].
  split; [| split; [| split]].
  - intros r Hin Hid. apply in_map_iff. exists r. split; [| assumption].
    rewrite Hrow. apply Z.eqb_eq in Hid. rewrite Hid. reflexivity.
  - intros r Hin Hid. apply in_map_iff. exists r. split; [| assumption].
    rewrite Hrow. apply Z.eqb_neq in Hid. rewrite Hid. reflexivity.
  - intros r [_ Hpaths _] Hin Hid Hpath.
    unfold get_file_metadata. rewrite given_nonempty by assumption. simpl.
    unfold Sqlite.select. simpl.
    rewrite select_map_same_path.
    + rewrite select_unique_path by assumption. simpl.
      rewrite Hrow. apply Z.eqb_eq in Hid. rewrite Hid. reflexivity.
    + intros x. unfold Sqlite.update_row. destruct (id x =? i); reflexivity.
  - intros Habsent. rewrite update_row_absent by assumption.
    destruct db; reflexivity.
Qed.

Lemma one_record_store_well_formed : well_formed one_record_store.
Proof.
  apply add_file_metadata_well_formed.
  constructor; simpl; [constructor | constructor | lia].
Qed.

Lemma update_status_archived_witness :
  value (get_file_metadata None (Some "/vault/report.txt")
           (db_after (archive Sqlite.refuse_others 1 one_record_store)))
  = [mkFileRecord 1 "Quarterly report" "Uncategorized" "archived" "text_file" "internal" ""
       "2024-05-01T10:00:00" "report.txt" "/vault/report.txt"].
Proof.
  apply (proj1 (proj2 (proj2 (proj2 (proj2 (proj2
           (update_status_archived Sqlite.refuse_others one_record_store 1))))))
         (Sqlite.row_of 1 (sample_data "/vault/report.txt"))).
  - apply one_record_store_well_formed.
  - simpl. tauto.
  - reflexivity.
  - discriminate.
Defined.

(** C1 as stated fails: a field name outside the FileRecord field set is
    not rejected before a statement is built; the statement is built from
    it and handed to the engine. *)
Lemma update_file_metadata_allow_list_counterexample :
  ~ In "bogus" file_record_fields
  /\ log (update_file_metadata Sqlite.refuse_others 1 "bogus" "x" one_record_store)
     = [Executed "UPDATE files SET bogus=? WHERE id=?" [SqlText "x"; SqlInt 1];
        Printed (MsgUpdateError (OperationalError "no such column"))].
Proof.
  split; [| reflexivity].
  simpl. intuition discriminate.
Qed.

(** C1 (amended). [update_file_metadata] checks no allow-list: for every
    call the statement [UPDATE files SET <field>=? WHERE id=?] is built
    from the field name as the caller gave it and executed with the value
    and the identifier as parameters.  A field name is refused only by the
    engine raising, which is reported as [False] with the store unchanged;
    when the engine accepts the statement the result is [True].  For each
    text column other than [path] the engine accepts: the rows with that
    identifier get the value in that column. *)
Theorem update_file_metadata_unvalidated
    (others : Sqlite.other_statements) (i : Z) (field v : string) (db : VaultDatabase) :
  (exists rest,
     log (update_file_metadata others i field v db)
     = Executed ("UPDATE files SET " ++ field ++ "=? WHERE id=?") [SqlText v; SqlInt i] :: rest)
  /\ (value (update_file_metadata others i field v db) = false ->
        db_after (update_file_metadata others i field v db) = db)
  /\ (forall e, Sqlite.execute_update others field v i db = inl e ->
        value (update_file_metadata others i field v db) = false)
  /\ (forall db', Sqlite.execute_update others field v i db = inr db' ->
        value (update_file_metadata others i field v db) = true
        /\ db_after (update_file_metadata others i field v db) = db')
  /\ (Sqlite.column_of_name field = None ->
        Sqlite.execute_update others field v i db
        = others ("UPDATE files SET " ++ field ++ "=? WHERE id=?") [SqlText v; SqlInt i] db)
  /\ (forall c, c <> Sqlite.col_path -> field = Sqlite.column_name c ->
        value (update_file_metadata others i field v db) = true
        /\ files (db_after (update_file_metadata others i field v db))
           = map (fun r => if id r =? i then Sqlite.set_column c v r else r) (files db)).
Proof.
  split; [| split; [| split; [| split; [| split]]]].
  - unfold update_file_metadata.
    destruct (Sqlite.execute_update others field v i db); eexists; reflexivity.
  - unfold update_file_metadata.
    destruct (Sqlite.execute_update others field v i db); simpl; [reflexivity | discriminate].
  - intros e He. unfold update_file_metadata. rewrite He. reflexivity.
  - intros db' Hok. unfold update_file_metadata. rewrite Hok. split; reflexivity.
  - intros Hnone. unfold Sqlite.execute_update. rewrite Hnone. reflexivity.
  - intros c Hc ->. rewrite update_text_column by assumption. split; reflexivity.
Qed.

Lemma update_file_metadata_unvalidated_witness :
  value (update_file_metadata Sqlite.refuse_others 1 "tags" "Reviewed" one_record_store) = true
  /\ files (db_after (update_file_metadata Sqlite.refuse_others 1 "tags" "Reviewed" one_record_store))
     = [mkFileRecord 1 "Quarterly report" "Reviewed" "new" "text_file" "internal" ""
          "2024-05-01T10:00:00" "report.txt" "/vault/report.txt"].
Proof.
  apply (proj2 (proj2 (proj2 (proj2 (proj2
           (update_file_metadata_unvalidated Sqlite.refuse_others 1 "tags" "Reviewed"
              one_record_store)))))
         Sqlite.col_tags).
  - discriminate.
  - reflexivity.
Defined.

(** ** The content analyzer *)

Section AnalyzerFacts.












End AnalyzerFacts.






Lemma take_length (n : nat) (s : string) : (String.length (PyStr.take n s) <= n)%nat.
Proof.
  revert s. induction n as [| n IH]; intros [| c s]; simpl; try lia.
  specialize (IH s). lia.
Qed.



(** ** The process-new-file workflow *)

Section WorkflowFacts.





Lemma existing_found (env : Environment) (p : string) (f : File) :
  existing env p = Some f -> probe env p = Returned (Some f).
Proof.
  unfold existing. destruct (probe env p) as [found | msg]; [intros ->; reflexivity | discriminate].
Qed.




End WorkflowFacts.






(** * Further properties *)

(** ** The store: identifiers and invariants *)

Lemma max_id_snoc (rows : list FileRecord) (r : FileRecord) :
  Sqlite.max_id (rows ++ [r]) = Z.max (Sqlite.max_id rows) (id r).
Proof.
  induction rows as [| x rows IH]; simpl.
  - pose proof (max_id_nonneg []). simpl in *. lia.
  - rewrite IH. lia.
Qed.

(** X1. A successful insert returns an identifier larger than every
    identifier in the table and than the counter, and the next successful
    insert returns the next integer: identifiers are handed out in
    increasing order and never reused. *)
Theorem identifiers_increase (db : VaultDatabase) (d1 d2 : FileData) :
  ~ In (fd_path d1) (map path (files db)) ->
  ~ In (fd_path d2) (map path (files db)) ->
  fd_path d2 <> fd_path d1 ->
  exists i,
    value (add_file_metadata d1 db) = Some i
    /\ (forall r, In r (files db) -> id r < i)
    /\ sqlite_sequence db < i
    /\ sqlite_sequence (db_after (add_file_metadata d1 db)) = i
    /\ value (add_file_metadata d2 (db_after (add_file_metadata d1 db))) = Some (i + 1).
Proof.
  intros H1 H2 Hdiff. exists (Sqlite.next_id db).
  rewrite (insert_fresh d1 db) by (apply has_path_fresh; assumption). simpl.
  split; [reflexivity |].
  split. { intros r Hr. apply max_id_bound in Hr. unfold Sqlite.next_id. lia. }
  split. { unfold Sqlite.next_id. lia. }
  split; [reflexivity |].
  rewrite insert_fresh.
  - simpl. f_equal. unfold Sqlite.next_id at 1. simpl.
    rewrite max_id_snoc. simpl.
    pose proof (max_id_nonneg (files db)). unfold Sqlite.next_id. lia.
  - apply has_path_fresh. simpl. rewrite map_app, in_app_iff. simpl.
    intros [H | [H | []]]; [exact (H2 H) | exact (Hdiff (eq_sym H))].
Qed.

Lemma identifiers_increase_witness :
  exists i,
    value (add_file_metadata (sample_data "/vault/a.txt") one_record_store) = Some i
    /\ (forall r, In r (files one_record_store) -> id r < i)
    /\ sqlite_sequence one_record_store < i
    /\ sqlite_sequence (db_after (add_file_metadata (sample_data "/vault/a.txt") one_record_store)) = i
    /\ value (add_file_metadata (sample_data "/vault/b.txt")
                (db_after (add_file_metadata (sample_data "/vault/a.txt") one_record_store)))
       = Some (i + 1).
Proof.
  apply (identifiers_increase one_record_store (sample_data "/vault/a.txt")
           (sample_data "/vault/b.txt")).
  - simpl. intros [H | []]. discriminate H.
  - simpl. intros [H | []]. discriminate H.
  - discriminate.
Defined.

(** Giving one row a path that no other row has keeps the paths distinct. *)
Lemma update_path_keeps_paths_distinct (v : string) (i : Z) (rows : list FileRecord) :
  NoDup (map id rows) -> NoDup (map path rows) ->
  (forall r, In r rows -> id r <> i -> path r <> v) ->
  NoDup (map path (map (Sqlite.update_row Sqlite.col_path v i) rows)).
Proof.
  induction rows as [| x rows IH]; simpl; intros Hids Hpaths Hother; [constructor |].
  inversion Hids as [| ? ? Hxid Hids']; subst.
  inversion Hpaths as [| ? ? Hxpath Hpaths']; subst.
  unfold Sqlite.update_row at 1.
  destruct (Z.eqb_spec (id x) i) as [Heq | Hneq].
  - rewrite update_row_absent by (rewrite <- Heq; assumption).
    simpl. constructor; [| assumption].
    rewrite in_map_iff. intros (r & Hr & Hin).
    apply (Hother r); [right; assumption | | assumption].
    intros Hid. apply Hxid. rewrite Heq, <- Hid. apply in_map. assumption.
  - constructor; [| apply IH; auto].
    rewrite map_map, in_map_iff. intros (r & Hr & Hin).
    unfold Sqlite.update_row in Hr.
    destruct (Z.eqb_spec (id r) i) as [_ | _]; simpl in Hr.
    + apply (Hother x); [left; reflexivity | assumption | symmetry; assumption].
    + apply Hxpath. rewrite <- Hr. apply in_map. assumption.
Qed.

Lemma path_collision_false (v : string) (i : Z) (rows : list FileRecord) :
  Sqlite.path_collision v i rows = false ->
  In i (map id rows) ->
  forall r, In r rows -> id r <> i -> path r <> v.
Proof.
  unfold Sqlite.path_collision. intros Hfree Hin r Hr Hid Hpath.
  destruct (filter (fun r => id r =? i) rows) as [| t [| t' ts]] eqn:Htouched.
  - apply in_map_iff in Hin. destruct Hin as (x & Hx & Hxin).
    assert (Hf : In x (filter (fun r => id r =? i) rows))
      by (apply filter_In; split; [assumption | apply Z.eqb_eq; assumption]).
    rewrite Htouched in Hf. destruct Hf.
  - assert (Hex : existsb (fun r => negb (id r =? i) && String.eqb (path r) v) rows = true).
    { apply existsb_exists. exists r. split; [assumption |].
      apply Z.eqb_neq in Hid. rewrite Hid. simpl. apply String.eqb_eq. assumption. }
    congruence.
  - discriminate.
Qed.

Lemma column_is_path (c : Sqlite.column) : c = Sqlite.col_path \/ c <> Sqlite.col_path.
Proof. destruct c; (left; reflexivity) || (right; discriminate). Qed.

(** X2. A well-formed store stays well formed under [add_file_metadata] and
    under [update_file_metadata] on each of the nine text columns, the
    path column included; such an update also leaves the identifiers and
    the number of rows as they were. *)
Theorem store_stays_well_formed (db : VaultDatabase) :
  well_formed db ->
  (forall d, well_formed (db_after (add_file_metadata d db)))
  /\ (forall others c i v,
        well_formed (db_after (update_file_metadata others i (Sqlite.column_name c) v db))
        /\ map id (files (db_after (update_file_metadata others i (Sqlite.column_name c) v db)))
           = map id (files db)).
Proof.
  intros Hwf. split; [intros d; apply add_file_metadata_well_formed; assumption |].
  intros others c i v.
  destruct (column_is_path c) as [-> | Hc].
  2: { split; [apply update_text_column_well_formed; assumption |].
       rewrite update_text_column by assumption. simpl.
       rewrite map_map. apply map_ext. intros r. apply update_row_id. }
  unfold update_file_metadata, Sqlite.execute_update.
  rewrite column_of_name_name. unfold Sqlite.update_column.
  destruct (Sqlite.path_collision v i (files db)) eqn:Hfree; simpl; [split; auto |].
  assert (Hids : map id (map (Sqlite.update_row Sqlite.col_path v i) (files db))
                 = map id (files db))
    by (rewrite map_map; apply map_ext; intros r; apply update_row_id).
  split; [| assumption].
  destruct Hwf as [Hi Hp Hs]. constructor; simpl; [rewrite Hids; assumption | | assumption].
  destruct (in_dec Z.eq_dec i (map id (files db))) as [Hin | Hout].
  - apply update_path_keeps_paths_distinct; try assumption.
    apply path_collision_false; assumption.
  - rewrite update_row_absent by assumption. assumption.
Qed.

Lemma store_stays_well_formed_witness :
  (forall d, well_formed (db_after (add_file_metadata d one_record_store)))
  /\ (forall others c i v,
        well_formed (db_after (update_file_metadata others i (Sqlite.column_name c) v
                                 one_record_store))
        /\ map id (files (db_after (update_file_metadata others i (Sqlite.column_name c) v
                                      one_record_store)))
           = map id (files one_record_store)).
Proof.
  apply (store_stays_well_formed one_record_store).
  apply add_file_metadata_well_formed.
  constructor; simpl; [constructor | constructor | lia].
Defined.

(** X3. The path column is [UNIQUE] for updates too: moving a record onto
    the path of another record is refused.  The call returns [False],
    prints the error and leaves the store as it was. *)
Theorem update_path_collision
    (others : Sqlite.other_statements) (db : VaultDatabase) (r1 r2 : FileRecord) :
  In r1 (files db) -> In r2 (files db) -> id r1 <> id r2 ->
  value (update_file_metadata others (id r1) "path" (path r2) db) = false
  /\ db_after (update_file_metadata others (id r1) "path" (path r2) db) = db
  /\ exists e, In (Printed (MsgUpdateError e))
                 (log (update_file_metadata others (id r1) "path" (path r2) db)).
Proof.
  intros H1 H2 Hdiff.
  assert (Hhit : Sqlite.path_collision (path r2) (id r1) (files db) = true).
  { unfold Sqlite.path_collision.
    destruct (filter (fun r => id r =? id r1) (files db)) as [| t [| t' ts]] eqn:Htouched.
    - assert (Hf : In r1 (filter (fun r => id r =? id r1) (files db)))
        by (apply filter_In; split; [assumption | apply Z.eqb_refl]).
      rewrite Htouched in Hf. destruct Hf.
    - apply existsb_exists. exists r2. split; [assumption |].
      assert (id r2 <> id r1) as Hne by congruence.
      apply Z.eqb_neq in Hne. rewrite Hne. simpl. apply String.eqb_refl.
    - reflexivity. }
  unfold update_file_metadata, Sqlite.execute_update.
  change (Sqlite.column_of_name "path") with (Some Sqlite.col_path).
  unfold Sqlite.update_column. rewrite Hhit. simpl.
  split; [reflexivity |]. split; [reflexivity |].
  eexists. right. left. reflexivity.
Qed.

Lemma update_path_collision_witness :
  value (update_file_metadata Sqlite.refuse_others 1 "path" "/vault/a.txt" two_record_store)
  = false
  /\ db_after (update_file_metadata Sqlite.refuse_others 1 "path" "/vault/a.txt" two_record_store)
     = two_record_store
  /\ exists e, In (Printed (MsgUpdateError e))
                 (log (update_file_metadata Sqlite.refuse_others 1 "path" "/vault/a.txt"
                         two_record_store)).
Proof.
  apply (update_path_collision Sqlite.refuse_others two_record_store
           (Sqlite.row_of 1 (sample_data "/vault/report.txt"))
           (Sqlite.row_of 2 (sample_data "/vault/a.txt"))).
  - simpl. tauto.
  - simpl. tauto.
  - simpl. lia.
Defined.

(** ** The store: how updates and lookups compose *)

Lemma set_column_id (c : Sqlite.column) (v : string) (r : FileRecord) :
  id (Sqlite.set_column c v r) = id r.
Proof. destruct c; reflexivity. Qed.

Lemma update_row_twice (c : Sqlite.column) (v1 v2 : string) (i : Z) (r : FileRecord) :
  Sqlite.update_row c v2 i (Sqlite.update_row c v1 i r) = Sqlite.update_row c v2 i r.
Proof.
  unfold Sqlite.update_row. destruct (id r =? i) eqn:Hi.
  - rewrite set_column_id, Hi. destruct c; reflexivity.
  - rewrite Hi. reflexivity.
Qed.

Lemma update_row_swap (c1 c2 : Sqlite.column) (v1 v2 : string) (i1 i2 : Z) (r : FileRecord) :
  c1 <> c2 ->
  Sqlite.update_row c2 v2 i2 (Sqlite.update_row c1 v1 i1 r)
  = Sqlite.update_row c1 v1 i1 (Sqlite.update_row c2 v2 i2 r).
Proof.
  intros Hc. unfold Sqlite.update_row.
  destruct (id r =? i1) eqn:H1, (id r =? i2) eqn:H2;
    rewrite ?set_column_id, ?H1, ?H2; try reflexivity.
  destruct c1, c2; try reflexivity; congruence.
Qed.

(** X4. Updates of text columns other than [path] compose as assignments:
    a second update of the same column of the same identifier overrides
    the first, and updates of two different columns reach the same store
    in either order, whatever the identifiers. *)
Theorem updates_compose (others : Sqlite.other_statements)
    (c1 c2 : Sqlite.column) (i1 i2 : Z) (v1 v2 : string) (db : VaultDatabase) :
  c1 <> Sqlite.col_path -> c2 <> Sqlite.col_path ->
  db_after (update_file_metadata others i1 (Sqlite.column_name c1) v2
              (db_after (update_file_metadata others i1 (Sqlite.column_name c1) v1 db)))
  = db_after (update_file_metadata others i1 (Sqlite.column_name c1) v2 db)
  /\ (c1 <> c2 ->
      db_after (update_file_metadata others i2 (Sqlite.column_name c2) v2
                  (db_after (update_file_metadata others i1 (Sqlite.column_name c1) v1 db)))
      = db_after (update_file_metadata others i1 (Sqlite.column_name c1) v1
                    (db_after (update_file_metadata others i2 (Sqlite.column_name c2) v2 db)))).
Proof.
  intros H1 H2. rewrite !update_text_column by assumption. simpl.
  split.
  - f_equal. rewrite map_map. apply map_ext. intros r. apply update_row_twice.
  - intros Hc. f_equal. rewrite !map_map. apply map_ext. intros r.
    apply update_row_swap. assumption.
Qed.

Lemma updates_compose_witness :
  db_after (update_file_metadata Sqlite.refuse_others 1 "status" "archived"
              (db_after (update_file_metadata Sqlite.refuse_others 1 "status" "review"
                           one_record_store)))
  = db_after (update_file_metadata Sqlite.refuse_others 1 "status" "archived" one_record_store)
  /\ db_after (update_file_metadata Sqlite.refuse_others 1 "tags" "archived"
                 (db_after (update_file_metadata Sqlite.refuse_others 1 "status" "review"
                              one_record_store)))
     = db_after (update_file_metadata Sqlite.refuse_others 1 "status" "review"
                   (db_after (update_file_metadata Sqlite.refuse_others 1 "tags" "archived"
                                one_record_store))).
Proof.
  destruct (updates_compose Sqlite.refuse_others Sqlite.col_status Sqlite.col_tags 1 1
              "review" "archived" one_record_store) as [Hsame Hswap]; try discriminate.
  split; [exact Hsame | apply Hswap; discriminate].
Defined.

Lemma select_in (keep : FileRecord -> bool) (db : VaultDatabase) (r : FileRecord) :
  In r (Sqlite.select keep db) <-> In r (files db) /\ keep r = true.
Proof. unfold Sqlite.select. apply filter_In. Qed.

Lemma select_path_at_most_one (p : string) (rows : list FileRecord) :
  NoDup (map path rows) ->
  (length (filter (fun r => String.eqb (path r) p) rows) <= 1)%nat.
Proof.
  induction rows as [| x rows IH]; simpl; intros Hnd; [lia |].
  inversion Hnd as [| ? ? Hx Hrest]; subst.
  destruct (String.eqb_spec (path x) p) as [Heq | _]; [| auto].
  rewrite select_fresh_path by (rewrite <- Heq; assumption). simpl. lia.
Qed.

(** X5. A lookup by a non-empty path ignores the filename argument,
    changes nothing, and returns only stored records with that path: none
    when the path is not in the store, and at most one when the store is
    well formed. *)
Theorem lookup_by_path (db : VaultDatabase) (by_filename : option string) (p : string) :
  p <> "" ->
  value (get_file_metadata by_filename (Some p) db) = value (get_file_metadata None (Some p) db)
  /\ db_after (get_file_metadata by_filename (Some p) db) = db
  /\ (forall r, In r (value (get_file_metadata by_filename (Some p) db)) <->
                In r (files db) /\ path r = p)
  /\ (~ In p (map path (files db)) -> value (get_file_metadata by_filename (Some p) db) = [])
  /\ (well_formed db -> (length (value (get_file_metadata by_filename (Some p) db)) <= 1)%nat).
Proof.
  intros Hp. unfold get_file_metadata. rewrite given_nonempty by assumption. simpl.
  split; [reflexivity |]. split; [reflexivity |]. split; [| split].
  - intros r. rewrite select_in, String.eqb_eq. tauto.
  - intros Hfresh. apply select_fresh_path. assumption.
  - intros [_ Hpaths _]. apply select_path_at_most_one. assumption.
Qed.

Lemma lookup_by_path_witness :
  value (get_file_metadata (Some "other.txt") (Some "/vault/report.txt") one_record_store)
  = value (get_file_metadata None (Some "/vault/report.txt") one_record_store).
Proof.
  apply (lookup_by_path one_record_store (Some "other.txt") "/vault/report.txt").
  discriminate.
Defined.

(** X6. With no path given, or the empty path, a lookup by a non-empty
    filename returns the stored records with that filename in storage
    order, and after a successful insert of a record with that filename
    the result is the former result followed by the new record: several
    records may share a filename. *)
Theorem lookup_by_filename_after_insert
    (db : VaultDatabase) (d : FileData) (by_path : option string) :
  by_path = None \/ by_path = Some "" ->
  fd_filename d <> "" ->
  ~ In (fd_path d) (map path (files db)) ->
  value (get_file_metadata (Some (fd_filename d)) by_path db)
  = filter (fun r => String.eqb (filename r) (fd_filename d)) (files db)
  /\ exists i,
       value (add_file_metadata d db) = Some i
       /\ value (get_file_metadata (Some (fd_filename d)) by_path
                   (db_after (add_file_metadata d db)))
          = (value (get_file_metadata (Some (fd_filename d)) by_path db)
             ++ [Sqlite.row_of i d])%list.
Proof.
  intros Hpath Hname Hfresh.
  assert (Hgiven : given by_path = None) by (destruct Hpath as [-> | ->]; reflexivity).
  unfold get_file_metadata. rewrite Hgiven, given_nonempty by assumption. simpl.
  split; [reflexivity |].
  exists (Sqlite.next_id db).
  rewrite (insert_fresh d db) by (apply has_path_fresh; assumption). simpl.
  split; [reflexivity |].
  unfold Sqlite.select. simpl. rewrite filter_app. simpl.
  rewrite String.eqb_refl. reflexivity.
Qed.

Lemma lookup_by_filename_after_insert_witness :
  exists i,
    value (add_file_metadata (sample_data "/vault/copy/report.txt") one_record_store) = Some i
    /\ value (get_file_metadata (Some "report.txt") (Some "")
                (db_after (add_file_metadata (sample_data "/vault/copy/report.txt")
                             one_record_store)))
       = (value (get_file_metadata (Some "report.txt") (Some "") one_record_store)
          ++ [Sqlite.row_of i (sample_data "/vault/copy/report.txt")])%list.
Proof.
  apply (proj2 (lookup_by_filename_after_insert one_record_store
                  (sample_data "/vault/copy/report.txt") (Some "")
                  (or_intror eq_refl) ltac:(discriminate)
                  ltac:(simpl; intros [H | []]; discriminate H))).
Defined.

(** ** Size formatting: the range of the number shown *)

Lemma human_readable_size_unfold (n : Z) :
  0 <= n ->
  human_readable_size n
  = one_decimal (float_of_int n) (1024 ^ Z.of_nat (unit_index n))
    ++ " " ++ nth (unit_index n) unit_names "".
Proof.
  intros Hn.
  assert (Hcmp : forall t, t <= 2 ^ 53 -> (float_of_int n <? t) = (n <? t))
    by (intros; apply float_of_int_ltb; assumption).
  unfold human_readable_size, size_units, size_loop, lt_1024, div_1024, format_1f, unit_index.
  destruct (Z.ltb_spec n 1024); [reflexivity |].
  change (1024 * 2 ^ Z.of_N 10) with (1024 ^ 2).
  change (1024 * 2 ^ Z.of_N (10 + 10)) with (1024 ^ 3).
  change (1024 * 2 ^ Z.of_N (10 + 10 + 10)) with (1024 ^ 4).
  change (1024 * 2 ^ Z.of_N (10 + 10 + 10 + 10)) with (1024 ^ 5).
  rewrite !Hcmp by (vm_compute; discriminate).
  destruct (Z.ltb_spec n (1024 ^ 2)); [reflexivity |].
  destruct (Z.ltb_spec n (1024 ^ 3)); [reflexivity |].
  destruct (Z.ltb_spec n (1024 ^ 4)); [reflexivity |].
  destruct (Z.ltb_spec n (1024 ^ 5)); reflexivity.
Qed.

Lemma round_half_even_upper (a b c : Z) :
  0 < b -> a < c * b -> round_half_even a b <= c.
Proof.
  intros Hb Ha. assert (a / b < c) by (apply Z.div_lt_upper_bound; lia).
  unfold round_half_even.
  destruct (2 * (a mod b) <? b); [lia |].
  destruct (b <? 2 * (a mod b)); [lia |].
  destruct (Z.even (a / b)); lia.
Qed.

Lemma round_half_even_at_least (a b c : Z) :
  0 < b -> c * b <= a -> c <= round_half_even a b.
Proof.
  intros Hb Ha. assert (c <= a / b) by (apply Z.div_le_lower_bound; lia).
  pose proof (round_half_even_lower a b Hb). lia.
Qed.

Lemma round_half_even_whole (a : Z) : round_half_even a 1 = a.
Proof.
  unfold round_half_even. rewrite Z.mod_1_r, Z.div_1_r. reflexivity.
Qed.

(** X7. For a size below [1024^5] bytes the number shown has one decimal
    and lies between 0.0 and 1024.0; it is the byte count itself below
    1024 bytes, and at least 1.0 from the unit KB on.  (The upper end is
    reached: a value just under 1024 rounds up to "1024.0".) *)
Theorem size_number_range (n : Z) :
  0 <= n < 1024 ^ 5 ->
  exists t,
    human_readable_size n = tenths_text t ++ " " ++ nth (unit_index n) unit_names ""
    /\ 0 <= t <= 10240
    /\ (n < 1024 -> t = 10 * n)
    /\ (1024 <= n -> 10 <= t).
Proof.
  intros [Hlo Hhi].
  exists (round_half_even (10 * n) (1024 ^ Z.of_nat (unit_index n))).
  rewrite human_readable_size_unfold by assumption.
  rewrite float_of_int_exact by (split; [assumption | change (2 ^ 53) with (8 * 1024 ^ 5); lia]).
  unfold one_decimal. rewrite Z.abs_eq by assumption.
  destruct (Z.ltb_spec n 0) as [Hneg | _]; [lia |].
  split; [reflexivity |].
  unfold unit_index.
  destruct (Z.ltb_spec n 1024).
  { change (1024 ^ Z.of_nat 0) with 1. rewrite round_half_even_whole. lia. }
  assert (Hrange : forall k, 0 < 1024 ^ k -> 1024 ^ k <= n -> n < 1024 * 1024 ^ k ->
            0 <= round_half_even (10 * n) (1024 ^ k) <= 10240
            /\ (n < 1024 -> round_half_even (10 * n) (1024 ^ k) = 10 * n)
            /\ (1024 <= n -> 10 <= round_half_even (10 * n) (1024 ^ k))).
  { intros k Hk Hge Hlt.
    assert (10 <= round_half_even (10 * n) (1024 ^ k))
      by (apply round_half_even_at_least; lia).
    assert (round_half_even (10 * n) (1024 ^ k) <= 10240)
      by (apply round_half_even_upper; lia).
    lia. }
  destruct (Z.ltb_spec n (1024 ^ 2)); [apply Hrange; simpl; lia |].
  destruct (Z.ltb_spec n (1024 ^ 3)); [apply Hrange; simpl; lia |].
  destruct (Z.ltb_spec n (1024 ^ 4)); [apply Hrange; simpl; lia |].
  destruct (Z.ltb_spec n (1024 ^ 5)); [apply Hrange; simpl; lia | lia].
Qed.

Lemma size_number_range_witness :
  exists t,
    human_readable_size 1048575 = tenths_text t ++ " " ++ nth (unit_index 1048575) unit_names ""
    /\ 0 <= t <= 10240
    /\ (1048575 < 1024 -> t = 10 * 1048575)
    /\ (1024 <= 1048575 -> 10 <= t).
Proof.
  apply (size_number_range 1048575). split; [lia | reflexivity].
Defined.

(** ** The content analyzer: bounds and defaults *)

Section StringLengths.

Lemma string_length_app (a b : string) :
  String.length (a ++ b) = (String.length a + String.length b)%nat.
Proof. induction a as [| c a IH]; simpl; [reflexivity | rewrite IH; reflexivity]. Qed.

Lemma length_lstrip (s : string) : (String.length (PyStr.lstrip s) <= String.length s)%nat.
Proof.
  induction s as [| c s IH]; simpl; [lia |].
  destruct (PyStr.isspace c); simpl; lia.
Qed.

Lemma length_rstrip (s : string) : (String.length (PyStr.rstrip s) <= String.length s)%nat.
Proof.
  induction s as [| c s IH]; simpl; [lia |].
  destruct (PyStr.rstrip s); [destruct (PyStr.isspace c) |]; simpl in *; lia.
Qed.

Lemma length_strip (s : string) : (String.length (PyStr.strip s) <= String.length s)%nat.
Proof.
  unfold PyStr.strip.
  pose proof (length_rstrip (PyStr.lstrip s)). pose proof (length_lstrip s). lia.
Qed.

Lemma length_remove_char (c : ascii) (s : string) :
  (String.length (PyStr.remove_char c s) <= String.length s)%nat.
Proof.
  induction s as [| d s IH]; simpl; [lia |].
  destruct (Ascii.eqb c d); simpl; lia.
Qed.

Lemma length_first_piece (c : ascii) (s : string) :
  (String.length (hd "" (PyStr.split c s)) <= String.length s)%nat.
Proof.
  induction s as [| d s IH]; simpl; [lia |].
  destruct (Ascii.eqb c d); simpl; [lia |].
  destruct (PyStr.split c s); simpl in *; lia.
Qed.

End StringLengths.

(** X8. What the analyzers take from a readable file is short.  For a text
    file the preview has at most 253 characters and the title at most 500,
    and at most 70 when the first line does not start with '#'.  For an
    opened DOCX document the preview has at most 303 characters and the
    title fewer than 100.  For an opened PDF whose first page is missing
    or gives its text, the preview has at most 253 characters. *)
Theorem extracted_text_is_short (f : File) :
  (forall content, text_content f = Returned content ->
     (String.length (x_content_preview (analyze_text_file f)) <= 253)%nat
     /\ (String.length (x_detected_title (analyze_text_file f)) <= 500)%nat
     /\ (PyStr.startswith "#"
           (PyStr.strip (hd "" (PyStr.split PyStr.newline (PyStr.take 500 content)))) = false ->
         (String.length (x_detected_title (analyze_text_file f)) <= 70)%nat))
  /\ (forall paragraphs, docx f = DocxOpened paragraphs ->
        (String.length (x_content_preview (analyze_docx f)) <= 303)%nat
        /\ (String.length (x_detected_title (analyze_docx f)) < 100)%nat)
  /\ (forall title first_page text,
        pdf f = PdfOpened title first_page ->
        first_page = None \/ first_page = Some (Returned text) ->
        (String.length (x_content_preview (analyze_pdf f)) <= 253)%nat).
Proof.
  split; [| split].
  - intros content Hread. unfold analyze_text_file. rewrite Hread.
    cbn [x_content_preview x_detected_title]. unfold text_title.
    set (read := PyStr.take 500 content).
    set (first_line := PyStr.strip (hd "" (PyStr.split PyStr.newline read))).
    assert (Hread500 : (String.length read <= 500)%nat) by apply take_length.
    assert (Hfirst : (String.length first_line <= 500)%nat).
    { unfold first_line.
      pose proof (length_strip (hd "" (PyStr.split PyStr.newline read))).
      pose proof (length_first_piece PyStr.newline read). lia. }
    split; [| split].
    + rewrite string_length_app. cbn [String.length].
      pose proof (length_strip (PyStr.take 250 read)).
      pose proof (take_length 250 read). lia.
    + destruct (PyStr.truthy first_line); [| simpl; lia].
      destruct (PyStr.startswith "#" first_line).
      * pose proof (length_strip (PyStr.remove_char "#" first_line)).
        pose proof (length_remove_char "#" first_line). lia.
      * pose proof (take_length 70 first_line). lia.
    + intros Hplain. rewrite Hplain.
      destruct (PyStr.truthy first_line); [| simpl; lia].
      apply take_length.
  - intros paragraphs Hopen. unfold analyze_docx. rewrite Hopen.
    set (first_para := match paragraphs with p :: _ => PyStr.strip p | [] => "" end).
    assert (Htitle : (String.length
                (if PyStr.truthy first_para && (String.length first_para <? 100)%nat
                 then first_para else "") < 100)%nat).
    { destruct (PyStr.truthy first_para); simpl; [| lia].
      destruct (Nat.ltb_spec (String.length first_para) 100); simpl; lia. }
    destruct (docx_parts paragraphs 0) as [| part parts];
      cbn [x_content_preview x_detected_title]; (split; [| exact Htitle]).
    + simpl. lia.
    + rewrite string_length_app. cbn [String.length].
      pose proof (take_length 300 (PyStr.join (String PyStr.newline "") (part :: parts))). lia.
  - intros title first_page text Hopen Hpage. unfold analyze_pdf. rewrite Hopen.
    destruct Hpage as [-> | ->]; [simpl; lia |].
    destruct (PyStr.truthy text); cbn [x_content_preview]; [| simpl; lia].
    rewrite string_length_app. cbn [String.length].
    pose proof (take_length 250 (PyStr.strip text)). lia.
Qed.

Lemma extracted_text_is_short_witness :
  (String.length (x_content_preview (analyze_text_file (text_file "# Report Title"))) <= 253)%nat
  /\ (String.length (x_detected_title (analyze_text_file (text_file "# Report Title"))) <= 500)%nat
  /\ (PyStr.startswith "#"
        (PyStr.strip (hd "" (PyStr.split PyStr.newline (PyStr.take 500 "# Report Title")))) = false ->
      (String.length (x_detected_title (analyze_text_file (text_file "# Report Title"))) <= 70)%nat).
Proof.
  apply (proj1 (extracted_text_is_short (text_file "# Report Title")) "# Report Title").
  reflexivity.
Defined.








(** [lower_char] on every character: the two ranges of capitals move up
    by 32, everything else stays. *)
Lemma lower_char_spec (c : ascii) :
  nat_of_ascii (PyStr.lower_char c)
  = if (((65 <=? nat_of_ascii c) && (nat_of_ascii c <=? 90))
        || ((192 <=? nat_of_ascii c) && (nat_of_ascii c <=? 222)
            && negb (nat_of_ascii c =? 215)))%nat
    then (nat_of_ascii c + 32)%nat else nat_of_ascii c.
Proof.
  destruct c as [[] [] [] [] [] [] [] []]; reflexivity.
Qed.





(** ** The workflow: what every run preserves *)

Section WorkflowInvariants.

Lemma extends_refl (w : World) : extends w w.
Proof.
  constructor; [exists [] | exists [] | exists [] | auto];
    rewrite ?app_nil_r; reflexivity.
Qed.

Lemma extends_trans (w1 w2 w3 : World) :
  extends w1 w2 -> extends w2 w3 -> extends w1 w3.
Proof.
  intros [[a1 Ha1] [u1 Hu1] [n1 Hn1] Hw1] [[a2 Ha2] [u2 Hu2] [n2 Hn2] Hw2].
  constructor.
  - exists (a1 ++ a2)%list. rewrite Ha2, Ha1, app_assoc. reflexivity.
  - exists (u1 ++ u2)%list. rewrite Hu1, Hu2, app_assoc. reflexivity.
  - exists (n1 ++ n2)%list. rewrite Hn2, Hn1, app_assoc. reflexivity.
  - auto.
Qed.

Lemma monotone_ret {A} (a : A) : monotone (ret a).
Proof. intros w. apply extends_refl. Qed.

Lemma monotone_raise {A} : monotone (@raise A).
Proof. intros w. apply extends_refl. Qed.

Lemma monotone_print (m : message) : monotone (print m).
Proof.
  intros w. constructor; simpl; [exists [] | exists [] | exists [Printed m] | auto];
    rewrite ?app_nil_r; reflexivity.
Qed.

Lemma monotone_input : monotone input.
Proof.
  intros w. unfold input. destruct (stdin w) as [| line rest] eqn:Hin; simpl.
  - apply extends_refl.
  - constructor; simpl; [exists [] | exists [line] | exists [] | auto];
      rewrite ?app_nil_r; auto.
Qed.

Lemma monotone_bind {A B} (c : Workflow A) (k : A -> Workflow B) :
  monotone c -> (forall a, monotone (k a)) -> monotone (bind c k).
Proof.
  intros Hc Hk w. unfold bind. specialize (Hc w).
  destruct (c w) as [[a |] w']; simpl in *; [| assumption].
  apply (extends_trans w w'); [assumption | apply Hk].
Qed.

Lemma monotone_add (d : FileData) : monotone (on_store (add_file_metadata d)).
Proof.
  intros w. unfold on_store. constructor; simpl.
  - destruct (Sqlite.has_path (fd_path d) (database w)) eqn:Hp.
    + rewrite insert_duplicate by assumption. exists []. rewrite app_nil_r. reflexivity.
    + rewrite insert_fresh by assumption. eexists. reflexivity.
  - exists []. reflexivity.
  - eexists. reflexivity.
  - apply add_file_metadata_well_formed.
Qed.

Lemma monotone_get (by_filename by_path : option string) :
  monotone (on_store (get_file_metadata by_filename by_path)).
Proof.
  intros w. unfold on_store, get_file_metadata.
  destruct (given by_path); [| destruct (given by_filename)]; simpl;
    (constructor; simpl;
     [ exists []; rewrite app_nil_r; reflexivity
     | exists []; reflexivity
     | eexists; reflexivity
     | auto ]).
Qed.

Lemma read_only_ret {A} (a : A) : read_only (ret a).
Proof. intros w. split; [reflexivity | exists []; simpl; rewrite app_nil_r; reflexivity]. Qed.

Lemma read_only_raise {A} : read_only (@raise A).
Proof. intros w. split; [reflexivity | exists []; simpl; rewrite app_nil_r; reflexivity]. Qed.

Lemma read_only_print (m : message) : read_only (print m).
Proof. intros w. split; [reflexivity | exists [m]; reflexivity]. Qed.

Lemma read_only_input : read_only input.
Proof.
  intros w. unfold input. destruct (stdin w); simpl;
    (split; [reflexivity | exists []; simpl; rewrite app_nil_r; reflexivity]).
Qed.

Lemma read_only_bind {A B} (c : Workflow A) (k : A -> Workflow B) :
  read_only c -> (forall a, read_only (k a)) -> read_only (bind c k).
Proof.
  intros Hc Hk w. unfold bind. destruct (Hc w) as [Hdb [ms Htr]].
  destruct (c w) as [[a |] w']; simpl in *; [| eauto].
  destruct (Hk a w') as [Hdb' [ms' Htr']].
  split; [congruence |].
  exists (ms ++ ms')%list. rewrite Htr', Htr, map_app, app_assoc. reflexivity.
Qed.

Lemma never_raises_ret {A} (a : A) : never_raises (ret a).
Proof. intros w. discriminate. Qed.

Lemma never_raises_print (m : message) : never_raises (print m).
Proof. intros w. discriminate. Qed.

Lemma never_raises_on_store {A} (method : VaultDatabase -> outcome A) :
  never_raises (on_store method).
Proof. intros w. discriminate. Qed.

Lemma never_raises_bind {A B} (c : Workflow A) (k : A -> Workflow B) :
  never_raises c -> (forall a, never_raises (k a)) -> never_raises (bind c k).
Proof.
  intros Hc Hk w. unfold bind. specialize (Hc w).
  destruct (c w) as [[a |] w']; simpl in *; [apply Hk | congruence].
Qed.

Lemma eof_safe_total {A} (c : Workflow A) : never_raises c -> eof_safe c.
Proof. intros Hc w Hnone. destruct (Hc w Hnone). Qed.

Lemma eof_safe_read_only {A} (c : Workflow A) : read_only c -> eof_safe c.
Proof. intros Hc w _. apply Hc. Qed.

Lemma eof_safe_bind {A B} (c : Workflow A) (k : A -> Workflow B) :
  read_only c -> (forall a, eof_safe (k a)) -> eof_safe (bind c k).
Proof.
  intros Hc Hk w. unfold bind. destruct (Hc w) as [Hdb [ms Htr]].
  destruct (c w) as [[a |] w']; simpl in *; [| eauto].
  intros Hnone. destruct (Hk a w' Hnone) as [Hdb' [ms' Htr']].
  split; [congruence |].
  exists (ms ++ ms')%list. rewrite Htr', Htr, map_app, app_assoc. reflexivity.
Qed.

End WorkflowInvariants.

Ltac monotone_steps :=
  repeat first
    [ apply monotone_ret | apply monotone_print | apply monotone_input
    | apply monotone_add | apply monotone_get
    | apply monotone_bind; [| intros ?]
    | progress cbv zeta
    | match goal with
      | |- monotone (if ?b then _ else _) => destruct b
      | |- monotone (match ?x with _ => _ end) => destruct x
      end ].

Ltac read_only_steps :=
  repeat first
    [ apply read_only_ret | apply read_only_print | apply read_only_input
    | apply read_only_bind; [| intros ?]
    | progress cbv zeta
    | match goal with
      | |- read_only (if ?b then _ else _) => destruct b
      | |- read_only (match ?x with _ => _ end) => destruct x
      end ].

Ltac never_raises_steps :=
  repeat first
    [ apply never_raises_ret | apply never_raises_print | apply never_raises_on_store
    | apply never_raises_bind; [| intros ?]
    | progress cbv zeta
    | match goal with
      | |- never_raises (if ?b then _ else _) => destruct b
      | |- never_raises (match ?x with _ => _ end) => destruct x
      end ].

Section PromptFacts.

Lemma read_only_tag_selection (suggested : list string) :
  read_only (interactive_tag_selection suggested).
Proof. unfold interactive_tag_selection. read_only_steps. Qed.

Lemma read_only_category_selection (detected : string) :
  read_only (smart_category_selection detected).
Proof. unfold smart_category_selection. read_only_steps. Qed.

Lemma read_only_display (name : string) (a : Analysis) :
  read_only (display_file_analysis name a).
Proof. unfold display_file_analysis. read_only_steps. Qed.

Lemma monotone_tag_selection (suggested : list string) :
  monotone (interactive_tag_selection suggested).
Proof. unfold interactive_tag_selection. monotone_steps. Qed.

Lemma monotone_category_selection (detected : string) :
  monotone (smart_category_selection detected).
Proof. unfold smart_category_selection. monotone_steps. Qed.

Lemma monotone_process_new_file (env : Environment) (file_path_str : string) :
  monotone (process_new_file env file_path_str).
Proof.
  unfold process_new_file, display_file_analysis. cbv zeta.
  destruct (probe env (resolve env file_path_str)) as [[f |] | msg];
    [| apply monotone_print | apply monotone_raise].
  repeat first
    [ apply monotone_tag_selection | apply monotone_category_selection
    | progress monotone_steps ].
Qed.

Lemma eof_safe_process_new_file (env : Environment) (file_path_str : string) :
  eof_safe (process_new_file env file_path_str).
Proof.
  unfold process_new_file. cbv zeta.
  destruct (probe env (resolve env file_path_str)) as [[f |] | msg];
    [| apply eof_safe_total, never_raises_print | apply eof_safe_read_only, read_only_raise].
  repeat (apply eof_safe_bind;
          [first [ apply read_only_print | apply read_only_input | apply read_only_display
                 | apply read_only_tag_selection | apply read_only_category_selection ]
          | intros ?]).
  apply eof_safe_total. never_raises_steps.
Qed.

End PromptFacts.

Section CommitFacts.

Lemma adds_only_read_only (P : FileData -> Prop) {A} (c : Workflow A) :
  read_only c -> adds_only P c.
Proof. intros Hc w. left. apply Hc. Qed.

Lemma adds_only_bind (P : FileData -> Prop) {A B} (c : Workflow A) (k : A -> Workflow B) :
  read_only c -> (forall a, adds_only P (k a)) -> adds_only P (bind c k).
Proof.
  intros Hc Hk w. unfold bind. destruct (Hc w) as [Hdb _].
  destruct (c w) as [[a |] w']; simpl in *; [| left; assumption].
  rewrite <- Hdb. apply Hk.
Qed.

Lemma adds_only_commit (P : FileData -> Prop) {B} (d : FileData) (k : option Z -> Workflow B) :
  P d -> (forall r, read_only (k r)) ->
  adds_only P (bind (on_store (add_file_metadata d)) k).
Proof.
  intros Hd Hk w. right. exists d. split; [assumption |].
  unfold bind, on_store. simpl. apply Hk.
Qed.

Lemma sensitivity_of_closed (choice : string) :
  In (sensitivity_of choice) sensitivity_levels.
Proof.
  unfold sensitivity_of, dict_get, sensitivity_levels. cbn [find fst].
  destruct (String.eqb "1" choice); [simpl; tauto |].
  destruct (String.eqb "3" choice); simpl; tauto.
Qed.

Lemma status_of_closed (choice : string) : In (status_of choice) status_values.
Proof.
  unfold status_of, dict_get, status_values. cbn [find fst].
  destruct (String.eqb "2" choice); [simpl; tauto |].
  destruct (String.eqb "3" choice); [simpl; tauto |].
  destruct (String.eqb "4" choice); [simpl; tauto |].
  destruct (String.eqb "5" choice); simpl; tauto.
Qed.

Lemma adds_only_process_new_file (env : Environment) (file_path_str : string) :
  adds_only (workflow_record env file_path_str) (process_new_file env file_path_str).
Proof.
  unfold process_new_file. cbv zeta.
  destruct (probe env (resolve env file_path_str)) as [[f |] | msg];
    [| apply adds_only_read_only, read_only_print | apply adds_only_read_only, read_only_raise].
  repeat (apply adds_only_bind;
          [first [ apply read_only_print | apply read_only_input | apply read_only_display
                 | apply read_only_tag_selection | apply read_only_category_selection ]
          | intros ?]).
  match goal with |- adds_only _ (if ?b then _ else _) => destruct b end;
    [| apply adds_only_read_only, read_only_print].
  apply adds_only_commit.
  - unfold workflow_record. cbn [fd_path fd_filename fd_date_created fd_sensitivity fd_status].
    repeat split; first [apply sensitivity_of_closed | apply status_of_closed].
  - intros r. destruct (saved r); apply read_only_print.
Qed.

End CommitFacts.

(** X12. A run of [process_new_file] that is cut short by the end of the
    input (the [EOFError] of [input()]) has written nothing: the database
    is unchanged and only messages were printed; the same holds of a run
    ended by an exception of the path check.  For an existing file the
    run is cut short whenever fewer than seven lines are left to read. *)
Theorem interrupted_run_writes_nothing
    (env : Environment) (file_path_str : string) (w : World) :
  (fst (process_new_file env file_path_str w) = None ->
     database (snd (process_new_file env file_path_str w)) = database w
     /\ exists ms, trace (snd (process_new_file env file_path_str w))
                   = (trace w ++ map Printed ms)%list)
  /\ (forall f, existing env (resolve env file_path_str) = Some f ->
        (length (stdin w) < 7)%nat ->
        fst (process_new_file env file_path_str w) = None).
Proof.
  split; [apply eof_safe_process_new_file |].
  intros f Hfile Hshort. destruct w as [db lines tr]. simpl in Hshort.
  unfold process_new_file. rewrite (existing_found _ _ _ Hfile).
  unfold display_file_analysis, smart_category_selection, interactive_tag_selection,
    bind, print, input, ret.
  cbn [database stdin trace].
  repeat (match goal with
          | |- context [match ?l with [] => _ | _ :: _ => _ end] =>
              is_var l; destruct l; cbn [database stdin trace fst snd]
          | |- context [if ?b then _ else _] => destruct b; cbn [database stdin trace fst snd]
          | |- context [match dict_get presets ?c with _ => _ end] =>
              destruct (dict_get presets c); cbn [database stdin trace fst snd]
          end; try reflexivity);
    simpl in Hshort; lia.
Qed.

Lemma interrupted_run_writes_nothing_witness :
  fst (process_new_file sample_environment "/vault/README.md" interrupted_session) = None
  /\ database (snd (process_new_file sample_environment "/vault/README.md" interrupted_session))
     = database interrupted_session.
Proof.
  assert (Hcut : fst (process_new_file sample_environment "/vault/README.md" interrupted_session)
                 = None).
  { apply (proj2 (interrupted_run_writes_nothing sample_environment "/vault/README.md"
                    interrupted_session) (text_file "# Report Title")).
    - reflexivity.
    - simpl. lia. }
  split; [exact Hcut |].
  apply (proj1 (interrupted_run_writes_nothing sample_environment "/vault/README.md"
                  interrupted_session) Hcut).
Defined.

(** X13. Whatever is typed, one run of [process_new_file] changes the
    table by at most one appended row and alters no existing row.  A row
    it appends is for the resolved path and its name, carries the clock's
    timestamp, a sensitivity among public/internal/confidential, a status
    among new/in_progress/review/completed/archived and a positive
    identifier.  The run only consumes input, and a well-formed store
    stays well formed. *)
Theorem process_new_file_appends (env : Environment) (file_path_str : string) (w : World) :
  (exists added,
     files (database (snd (process_new_file env file_path_str w)))
     = (files (database w) ++ added)%list
     /\ (length added <= 1)%nat
     /\ forall r, In r added ->
          path r = resolve env file_path_str
          /\ filename r = PyPath.name (resolve env file_path_str)
          /\ date_created r = now_isoformat env
          /\ In (sensitivity r) ["public"; "internal"; "confidential"]
          /\ In (status r) ["new"; "in_progress"; "review"; "completed"; "archived"]
          /\ 0 < id r)
  /\ (exists used, stdin w = (used ++ stdin (snd (process_new_file env file_path_str w)))%list)
  /\ (well_formed (database w) ->
      well_formed (database (snd (process_new_file env file_path_str w)))).
Proof.
  destruct (monotone_process_new_file env file_path_str w) as [_ Hstdin _ Hwf].
  split; [| split; assumption].
  destruct (adds_only_process_new_file env file_path_str w)
    as [-> | (d & (Hp & Hn & Hd & Hs & Ht) & ->)].
  - exists []. rewrite app_nil_r. split; [reflexivity |]. split; [simpl; lia |].
    intros r [].
  - destruct (Sqlite.has_path (fd_path d) (database w)) eqn:Hdup.
    + rewrite insert_duplicate by assumption. simpl.
      exists []. rewrite app_nil_r. split; [reflexivity |]. split; [simpl; lia |].
      intros r [].
    + rewrite insert_fresh by assumption. simpl.
      exists [Sqlite.row_of (Sqlite.next_id (database w)) d].
      split; [reflexivity |]. split; [simpl; lia |].
      intros r [<- | []]. simpl.
      repeat split; try assumption. apply next_id_positive.
Qed.

Lemma process_new_file_appends_witness :
  well_formed (database (snd (process_new_file sample_environment "/vault/README.md"
                                declining_session))).
Proof.
  apply (proj2 (proj2 (process_new_file_appends sample_environment "/vault/README.md"
                         declining_session))).
  apply add_file_metadata_well_formed.
  constructor; simpl; [constructor | constructor | lia].
Defined.

(** ** The workflow: what a completed run stores *)

Section CompletedRuns.



End CompletedRuns.







(** ** Search and the main menu *)

Section SearchFacts.






End SearchFacts.



Section MenuFacts.

Variable py : Builtins.
Variable env : Environment.




End MenuFacts.



(** A session that asks for a file whose name is too long: the error of
    the path check ends it before the exit choice is read. *)
Lemma main_menu_path_error_escapes :
  main_menu sample_builtins sample_environment 5
    (mkWorld one_record_store ["1"; overlong_path; "3"] [])
  = (None,
     mkWorld one_record_store ["3"]
       [Printed (MsgPanel ["🗂️  VAULT MASTER - Interactive File Manager v2.0";
                           "🚀  AI-Enhanced Workflow & Knowledge Management"]);
        Printed (MsgPanel ["MAIN MENU"; "1. Process New File  |  2. Search Database  |  3. Exit"])]).
Proof. vm_compute. reflexivity. Qed.
